(** * Call interceptor: pattern registry, confidence scoring, ledger and report

    A shallow embedding of [src/task_b_call_interceptor.py] (class
    [CallInterceptor]) and the properties its specification states.

    Conventions of the embedding.
    - A Python [str] is a [string]; each [ascii] stands for one code point
      below 256.  The character classes of the regular expressions ([\s],
      [\d], [\w], case folding) are those of Python's [re] on [str] patterns,
      restricted to that range.
    - JSON-like values ([Dict[str, Any]]) are the inductive [pyval]; a [dict]
      is a [gmap string pyval].
    - The interceptor object is the record [interceptor]; its methods are
      computations of the monad [M], which threads the object and lets a
      Python exception escape while keeping the mutations done so far.
    - [datetime.now], [hashlib.md5] and [json.dumps] are parameters of the
      methods that use them; the clock is read through a counter of the
      readings.
    - The log file is outside the object: [log_lines] lists the lines the
      methods write, in order.  Opening the file and writing to it are taken
      to succeed, like the calls of the library functions above; what a file
      held before is not part of the model. *)

From Stdlib Require Import Ascii String List NArith Bool Lia.
From stdpp Require Import base option list strings pretty gmap fin_maps.

Set Warnings "-register-all".
Local Open Scope string_scope.
Local Open Scope list_scope.

(** ** Regular expressions

    The fragment of Python's [re] that the registry uses, with the
    backtracking semantics of the [sre] engine: alternatives are tried left
    to right, a greedy repetition tries the longest run first and a lazy one
    the shortest, and the first successful path is the match. *)
Module Re.

Definition code (c : ascii) : N := N_of_ascii c.

Definition in_range (lo hi : N) (c : ascii) : bool :=
  ((lo <=? code c) && (code c <=? hi))%N.

(** [\s]: Py_UNICODE_ISSPACE.  Tab to carriage return, the four separators
    0x1c-0x1f, space, NEL and the no-break space. *)
Definition is_space (c : ascii) : bool :=
  in_range 9 13 c || in_range 28 32 c
  || (code c =? 133)%N || (code c =? 160)%N.

(** [\d]: Py_UNICODE_ISDECIMAL. *)
Definition is_digit (c : ascii) : bool := in_range 48 57 c.

(** Py_UNICODE_ISALNUM below 256: letters, decimal digits, and the
    characters that are alphabetic, digits or numeric in Latin-1. *)
Definition is_alnum (c : ascii) : bool :=
  in_range 48 57 c || in_range 65 90 c || in_range 97 122 c
  || (code c =? 170)%N || (code c =? 178)%N || (code c =? 179)%N
  || (code c =? 181)%N || (code c =? 185)%N || (code c =? 186)%N
  || in_range 188 190 c
  || in_range 192 214 c || in_range 216 246 c || in_range 248 255 c.

(** [\w]: alphanumeric or underscore. *)
Definition is_word (c : ascii) : bool := is_alnum c || (code c =? 95)%N.

(** Simple lower-case mapping, used by IGNORECASE. *)
Definition lower (c : ascii) : ascii :=
  if in_range 65 90 c || in_range 192 214 c || in_range 216 222 c
  then ascii_of_N (code c + 32) else c.

Record flags := Flags { ignorecase : bool; dotall : bool }.

(** What one pattern position accepts. *)
Inductive cset :=
| CAny                      (* .      *)
| CChar (c : ascii)         (* a literal character *)
| CDigit                    (* \d     *)
| CSpace                    (* \s     *)
| COneOf (l : string).      (* [...]  *)

Fixpoint mem_char (eq : ascii -> ascii -> bool) (c : ascii) (l : string) : bool :=
  match l with
  | EmptyString => false
  | String d l' => eq c d || mem_char eq c l'
  end.

Definition char_eq (fl : flags) (a b : ascii) : bool :=
  if ignorecase fl then Ascii.eqb (lower a) (lower b) else Ascii.eqb a b.

Definition cset_match (fl : flags) (cs : cset) (c : ascii) : bool :=
  match cs with
  | CAny => dotall fl || negb (Ascii.eqb c "010"%char)
  | CChar d => char_eq fl c d
  | CDigit => is_digit c
  | CSpace => is_space c
  | COneOf l => mem_char (char_eq fl) c l
  end.

Inductive regex :=
| Eps
| Atom (cs : cset)
| Seq (r1 r2 : regex)
| Alt (r1 r2 : regex)
| Repeat (lo : nat) (hi : option nat) (greedy : bool) (cs : cset)
| Group (n : nat) (r : regex)
| Backref (n : nat)
| WordB.

(** A literal word is the sequence of its characters. *)
Fixpoint lit (s : string) : regex :=
  match s with
  | EmptyString => Eps
  | String c EmptyString => Atom (CChar c)
  | String c s' => Seq (Atom (CChar c)) (lit s')
  end.

(** The matcher's position: the character before the cursor (for [\b]), the
    text from the cursor on, and the groups captured so far. *)
Record mstate := MState {
  prev : option ascii;
  rest : string;
  caps : list (nat * string)
}.

Fixpoint get_cap (n : nat) (cp : list (nat * string)) : option string :=
  match cp with
  | [] => None
  | (i, t) :: cp' => if Nat.eqb i n then Some t else get_cap n cp'
  end.

Fixpoint str_take (n : nat) (s : string) : string :=
  match n, s with
  | S n', String c s' => String c (str_take n' s')
  | _, _ => EmptyString
  end.

(** The text consumed between two positions of the same subject. *)
Definition consumed (before after : mstate) : string :=
  str_take (String.length (rest before) - String.length (rest after)) (rest before).

Definition opt_word (c : option ascii) : bool :=
  match c with Some a => is_word a | None => false end.

Definition next_char (s : string) : option ascii :=
  match s with String c _ => Some c | EmptyString => None end.

Definition at_boundary (st : mstate) : bool :=
  xorb (opt_word (prev st)) (opt_word (next_char (rest st))).

Definition orelse {A} (x : option A) (y : unit -> option A) : option A :=
  match x with Some a => Some a | None => y tt end.

Definition dec_hi (hi : option nat) : option nat :=
  match hi with Some n => Some (pred n) | None => None end.

Definition may_repeat (hi : option nat) : bool :=
  match hi with Some O => false | _ => true end.

(** [cs{lo,hi}] and [cs{lo,hi}?] followed by the continuation [k]. *)
Fixpoint rep (fl : flags) (cs : cset) (greedy : bool)
    (k : mstate -> option mstate) (cp : list (nat * string))
    (lo : nat) (hi : option nat) (p : option ascii) (s : string)
    {struct s} : option mstate :=
  let more (_ : unit) :=
    match s with
    | String c s' =>
        if may_repeat hi && cset_match fl cs c
        then rep fl cs greedy k cp (pred lo) (dec_hi hi) (Some c) s'
        else None
    | EmptyString => None
    end in
  match lo with
  | S _ => more tt
  | O =>
      if greedy then orelse (more tt) (fun _ => k (MState p s cp))
      else orelse (k (MState p s cp)) more
  end.

(** Consume a copy of [t] (a back-reference). *)
Fixpoint eat (fl : flags) (t : string) (p : option ascii) (s : string)
    : option (option ascii * string) :=
  match t with
  | EmptyString => Some (p, s)
  | String c t' =>
      match s with
      | String d s' => if char_eq fl d c then eat fl t' (Some d) s' else None
      | EmptyString => None
      end
  end.

Fixpoint run (fl : flags) (r : regex) (k : mstate -> option mstate)
    (st : mstate) : option mstate :=
  match r with
  | Eps => k st
  | Atom cs =>
      match rest st with
      | String c s' =>
          if cset_match fl cs c then k (MState (Some c) s' (caps st)) else None
      | EmptyString => None
      end
  | Seq r1 r2 => run fl r1 (run fl r2 k) st
  | Alt r1 r2 => orelse (run fl r1 k st) (fun _ => run fl r2 k st)
  | Repeat lo hi greedy cs => rep fl cs greedy k (caps st) lo hi (prev st) (rest st)
  | Group n r' =>
      run fl r' (fun st' =>
        k (MState (prev st') (rest st') ((n, consumed st st') :: caps st'))) st
  | Backref n =>
      match get_cap n (caps st) with
      | Some t =>
          match eat fl t (prev st) (rest st) with
          | Some (p, s') => k (MState p s' (caps st))
          | None => None
          end
      | None => None
      end
  | WordB => if at_boundary st then k st else None
  end.

Fixpoint ngroups (r : regex) : nat :=
  match r with
  | Seq r1 r2 | Alt r1 r2 => Nat.max (ngroups r1) (ngroups r2)
  | Group n r' => Nat.max n (ngroups r')
  | _ => 0
  end.

(** The least number of characters a match of [r] consumes. *)
Fixpoint min_len (r : regex) : nat :=
  match r with
  | Eps | Backref _ | WordB => 0
  | Atom _ => 1
  | Seq r1 r2 => min_len r1 + min_len r2
  | Alt r1 r2 => Nat.min (min_len r1) (min_len r2)
  | Repeat lo _ _ _ => lo
  | Group _ r' => min_len r'
  end.

(** A compiled pattern: [re.compile(source, flags)]. *)
Record pattern := Pattern { body : regex; pflags : flags }.

(** [pattern.match] at the cursor: the matched text and the groups. *)
Definition match_here (p : pattern) (pv : option ascii) (s : string)
    : option (string * list (nat * string)) :=
  let st := MState pv s [] in
  match run (pflags p) (body p) Some st with
  | Some st' => Some (consumed st st', caps st')
  | None => None
  end.

(** [pattern.search]: the leftmost position with a match. *)
Fixpoint search_from (p : pattern) (pv : option ascii) (s : string)
    : option (string * list (nat * string)) :=
  match match_here p pv s with
  | Some m => Some m
  | None =>
      match s with
      | String c s' => search_from p (Some c) s'
      | EmptyString => None
      end
  end.

Definition search (p : pattern) (s : string) : bool :=
  match search_from p None s with Some _ => true | None => false end.

(** An element of the list [findall] returns: the whole match when the
    pattern has no group, the group when it has one, a tuple of the groups
    when it has several.  A group that took no part reads as [''] . *)
Inductive fragment :=
| FStr (s : string)
| FTuple (l : list string).

Definition group_text (cp : list (nat * string)) (n : nat) : string :=
  match get_cap n cp with Some t => t | None => EmptyString end.

Definition fragment_of (p : pattern) (m : string * list (nat * string)) : fragment :=
  match ngroups (body p) with
  | 0 => FStr (fst m)
  | 1 => FStr (group_text (snd m) 1)
  | n => FTuple (map (group_text (snd m)) (seq 1 n))
  end.

(** [pattern.findall]: successive non-overlapping matches, left to right.
    [skip] counts the characters still covered by the previous match.  After
    an empty match the scan moves on by one character, which is what [sre]
    does for the patterns here: no registry pattern matches the empty string
    (lemma [registry_match_nonempty]). *)
Fixpoint findall_from (p : pattern) (skip : nat) (pv : option ascii) (s : string)
    : list fragment :=
  match skip with
  | S skip' =>
      match s with
      | String c s' => findall_from p skip' (Some c) s'
      | EmptyString => []
      end
  | O =>
      match match_here p pv s with
      | Some m =>
          fragment_of p m ::
          match s with
          | String c s' => findall_from p (pred (String.length (fst m))) (Some c) s'
          | EmptyString => []
          end
      | None =>
          match s with
          | String c s' => findall_from p 0 (Some c) s'
          | EmptyString => []
          end
      end
  end.

Definition findall (p : pattern) (s : string) : list fragment :=
  findall_from p 0 None s.

End Re.

Import Re.

(** ** The pattern registry ([CallInterceptor.__init__]) *)

Definition IGNORECASE : flags := Flags true false.
Definition DOTALL : flags := Flags false true.

(** [w1|w2|...|wn] over literal words. *)
Fixpoint alts (ws : list string) : regex :=
  match ws with
  | [] => Eps
  | [w] => lit w
  | w :: ws' => Alt (lit w) (alts ws')
  end.

Definition star (cs : cset) : regex := Repeat 0 None true cs.
Definition plus (cs : cset) : regex := Repeat 1 None true cs.
Definition at_least (n : nat) (cs : cset) : regex := Repeat n None true cs.

Fixpoint seqs (rs : list regex) : regex :=
  match rs with
  | [] => Eps
  | [r] => r
  | r :: rs' => Seq r (seqs rs')
  end.

(** [(\*{3,}|={3,}|-{3,})\s*(.+?)\s*\1], DOTALL *)
Definition banner_format_re : pattern :=
  Pattern
    (seqs [ Group 1 (Alt (at_least 3 (CChar "*"))
                    (Alt (at_least 3 (CChar "="))
                         (at_least 3 (CChar "-"))));
            star CSpace;
            Group 2 (Repeat 1 None false CAny);
            star CSpace;
            Backref 1 ])
    DOTALL.

(** [\b(announcement|notice|important|alert|update|news)\b], IGNORECASE *)
Definition announcement_keyword_re : pattern :=
  Pattern
    (seqs [ WordB;
            Group 1 (alts ["announcement"; "notice"; "important"; "alert";
                           "update"; "news"]);
            WordB ])
    IGNORECASE.

(** [\b(today|this week|starting|as of|effective)\s+\d{1,2}[/-]\d{1,2}],
    IGNORECASE *)
Definition date_reference_re : pattern :=
  Pattern
    (seqs [ WordB;
            Group 1 (alts ["today"; "this week"; "starting"; "as of";
                           "effective"]);
            plus CSpace;
            Repeat 1 (Some 2) true CDigit;
            Atom (COneOf "/-");
            Repeat 1 (Some 2) true CDigit ])
    IGNORECASE.

(** [\[system\]|\[admin\]|\[claude\]], IGNORECASE *)
Definition system_message_re : pattern :=
  Pattern (alts ["[system]"; "[admin]"; "[claude]"]) IGNORECASE.

(** [(urgent|critical|breaking|immediate)], IGNORECASE *)
Definition urgent_marker_re : pattern :=
  Pattern (Group 1 (alts ["urgent"; "critical"; "breaking"; "immediate"]))
          IGNORECASE.

(** [version\s+\d+\.\d+], IGNORECASE *)
Definition version_info_re : pattern :=
  Pattern
    (seqs [ lit "version"; plus CSpace; plus CDigit; Atom (CChar ".");
            plus CDigit ])
    IGNORECASE.

(** [self.announcement_patterns], in insertion order. *)
Definition announcement_patterns : list (string * pattern) :=
  [ ("banner_format", banner_format_re);
    ("announcement_keyword", announcement_keyword_re);
    ("date_reference", date_reference_re);
    ("system_message", system_message_re);
    ("urgent_marker", urgent_marker_re);
    ("version_info", version_info_re) ].

(** ** Python's [str(matches)]

    The text of a list of fragments, as [str] renders a list: the [repr] of
    each element between brackets. *)
Module PyStr.

Definition hex_digit (n : N) : ascii :=
  ascii_of_N (if (n <? 10)%N then 48 + n else 87 + n).

(** [\xhh] *)
Definition hex_escape (c : ascii) : string :=
  String "\" (String "x" (String (hex_digit (code c / 16))
                         (String (hex_digit (code c mod 16)) EmptyString))).

(** Py_UNICODE_ISPRINTABLE below 256. *)
Definition is_printable (c : ascii) : bool :=
  in_range 32 126 c || (in_range 161 255 c && negb (code c =? 173)%N).

Fixpoint contains (c : ascii) (s : string) : bool :=
  match s with
  | EmptyString => false
  | String d s' => Ascii.eqb c d || contains c s'
  end.

Definition squote : ascii := "'"%char.
Definition dquote : ascii := ascii_of_N 34.
Definition backslash : ascii := "\"%char.

(** The quote [repr] chooses: double quotes only when the text has a single
    quote and no double quote. *)
Definition quote_of (s : string) : ascii :=
  if contains squote s && negb (contains dquote s) then dquote else squote.

Definition repr_char (q c : ascii) : string :=
  if Ascii.eqb c q || Ascii.eqb c backslash then String backslash (String c EmptyString)
  else if (code c =? 9)%N then String backslash "t"
  else if (code c =? 10)%N then String backslash "n"
  else if (code c =? 13)%N then String backslash "r"
  else if is_printable c then String c EmptyString
  else hex_escape c.

Fixpoint repr_body (q : ascii) (s : string) : string :=
  match s with
  | EmptyString => EmptyString
  | String c s' => repr_char q c +:+ repr_body q s'
  end.

Definition repr_str (s : string) : string :=
  let q := quote_of s in
  String q (repr_body q s +:+ String q EmptyString).

Fixpoint join (sep : string) (l : list string) : string :=
  match l with
  | [] => EmptyString
  | [x] => x
  | x :: l' => x +:+ sep +:+ join sep l'
  end.

Definition repr_tuple (l : list string) : string :=
  match l with
  | [x] => "(" +:+ repr_str x +:+ ",)"
  | _ => "(" +:+ join ", " (map repr_str l) +:+ ")"
  end.

Definition repr_fragment (f : fragment) : string :=
  match f with
  | FStr s => repr_str s
  | FTuple l => repr_tuple l
  end.

(** [str(matches)] *)
Definition str_of_matches (ms : list fragment) : string :=
  "[" +:+ join ", " (map repr_fragment ms) +:+ "]".

End PyStr.

Import PyStr.

(** ** Values and records *)

(** JSON-like Python values ([Any]). *)
Inductive pyval :=
| PNone
| PBool (b : bool)
| PInt (z : Z)
| PStr (s : string)
| PList (l : list pyval)
| PDict (d : gmap string pyval).

Inductive exn := TypeError | AttributeError.

Inductive result (A : Type) :=
| Ok (a : A)
| Raise (e : exn).
Arguments Ok {A} a.
Arguments Raise {A} e.

(** [bool(v)] *)
Definition truthy (v : pyval) : bool :=
  match v with
  | PNone => false
  | PBool b => b
  | PInt z => negb (Z.eqb z 0)
  | PStr s => negb (String.eqb s "")
  | PList l => match l with [] => false | _ => true end
  | PDict d => negb (bool_decide (d = ∅))
  end.

(** [v.get(key, default)]: only a dict has [get]. *)
Definition py_get (v : pyval) (key : string) (dflt : pyval) : result pyval :=
  match v with
  | PDict d => Ok (default dflt (d !! key))
  | _ => Raise AttributeError
  end.

Fixpoint chars (s : string) : list pyval :=
  match s with
  | EmptyString => []
  | String c s' => PStr (String c EmptyString) :: chars s'
  end.

(** [iter(v)]: the elements a [for] loop or a comprehension goes through. *)
Definition py_iter (v : pyval) : result (list pyval) :=
  match v with
  | PList l => Ok l
  | PStr s => Ok (chars s)
  | PDict d => Ok (map (fun kv => PStr (fst kv)) (map_to_list d))
  | _ => Raise TypeError
  end.

(** [v == 'user'] and the like. *)
Definition py_eq_str (v : pyval) (s : string) : bool :=
  match v with PStr t => String.eqb t s | _ => false end.

Record APICall := mkAPICall {
  timestamp : string;
  call_id : string;
  type : string;
  endpoint : string;
  model : pyval;
  messages : pyval;
  system_prompt : pyval;
  tools : list pyval;
  metadata : gmap string pyval
}.

Record AnnouncementIndicator := mkIndicator {
  ind_timestamp : string;
  ind_call_id : string;
  indicator_type : string;
  content : string;
  confidence : string;
  location : string;
  pattern_matched : string
}.

(** One append to either ledger; the journal below keeps them in the order
    they happened. *)
Inductive entry :=
| JCall (c : APICall)
| JIndicator (i : AnnouncementIndicator).

(** The interceptor object ([calls], [indicators], [call_patterns]) and the
    part of the world it touches: the clock, read by [datetime.now()], and
    the log file lines.  [journal] is a history variable, not a field of the
    object: it lists the appends to [calls] and [indicators] in order. *)
Record interceptor := mkInterceptor {
  calls : list APICall;
  indicators : list AnnouncementIndicator;
  call_patterns : gmap string nat;
  clock : nat;
  log_lines : list (string * APICall);
  journal : list entry
}.

(** [CallInterceptor()] *)
Definition init : interceptor := mkInterceptor [] [] ∅ 0 [] [].

(** ** The monad of methods: state, and exceptions that keep the state *)

Definition M (A : Type) : Type := interceptor -> result A * interceptor.

Definition ret {A} (a : A) : M A := fun st => (Ok a, st).
Definition raise {A} (e : exn) : M A := fun st => (Raise e, st).
Definition bind {A B} (m : M A) (f : A -> M B) : M B :=
  fun st =>
    match m st with
    | (Ok a, st') => f a st'
    | (Raise e, st') => (Raise e, st')
    end.
Definition lift {A} (r : result A) : M A := fun st => (r, st).

#[global] Instance M_ret : MRet M := @ret.
#[global] Instance M_bind : MBind M := fun A B f m => bind m f.

(** [for i, x in enumerate(l, start=i): f(i, x)] *)
Fixpoint for_each {A} (f : nat -> A -> M unit) (i : nat) (l : list A) : M unit :=
  match l with
  | [] => ret tt
  | x :: l' => f i x ;; for_each f (S i) l'
  end.

(** [[f(x) for x in l]] with [f] free of effects. *)
Fixpoint map_result {A B} (f : A -> result B) (l : list A) : result (list B) :=
  match l with
  | [] => Ok []
  | x :: l' =>
      match f x with
      | Ok y =>
          match map_result f l' with
          | Ok ys => Ok (y :: ys)
          | Raise e => Raise e
          end
      | Raise e => Raise e
      end
  end.

(** The primitive effects. *)
Definition append_call (c : APICall) : M unit := fun st =>
  (Ok tt, mkInterceptor (calls st ++ [c]) (indicators st) (call_patterns st)
                        (clock st) (log_lines st) (journal st ++ [JCall c])).

Definition append_indicator (i : AnnouncementIndicator) : M unit := fun st =>
  (Ok tt, mkInterceptor (calls st) (indicators st ++ [i]) (call_patterns st)
                        (clock st) (log_lines st) (journal st ++ [JIndicator i])).

(** [self.call_patterns[name] += 1] on a [defaultdict(int)] *)
Definition count_pattern (name : string) : M unit := fun st =>
  (Ok tt, mkInterceptor (calls st) (indicators st)
            (<[name := S (default 0 (call_patterns st !! name))]> (call_patterns st))
            (clock st) (log_lines st) (journal st)).

(** A reading of the clock: the number of the reading, and the clock moves. *)
Definition tick : M nat := fun st =>
  (Ok (clock st), mkInterceptor (calls st) (indicators st) (call_patterns st)
                    (S (clock st)) (log_lines st) (journal st)).

Definition write_log (file : string) (c : APICall) : M unit := fun st =>
  (Ok tt, mkInterceptor (calls st) (indicators st) (call_patterns st)
            (clock st) (log_lines st ++ [(file, c)]) (journal st)).

Definition HIGH : string := "HIGH".
Definition MEDIUM : string := "MEDIUM".
Definition LOW : string := "LOW".

(** ** The methods of [CallInterceptor] *)

(** [sum(1 for p in self.announcement_patterns.values() if p.search(content))] *)
Definition matching_patterns (content : string) : nat :=
  length (filter (fun np => search (snd np) content = true) announcement_patterns).

(** [_determine_confidence] *)
Definition _determine_confidence (pattern_name : string) (matches : list fragment)
    (content : string) : string :=
  if bool_decide (pattern_name ∈ ["banner_format"; "system_message"]) then HIGH
  else
    let n := matching_patterns content in
    if bool_decide (3 ≤ n)%nat then HIGH
    else if bool_decide (n = 2) then MEDIUM
    else LOW.

(** The body of the loop of [_check_content_for_patterns]. *)
Definition check_pattern (cid content loc ts : string) (np : string * pattern) : M unit :=
  let matches := findall (snd np) content in
  match matches with
  | [] => ret tt
  | _ =>
      let confidence := _determine_confidence (fst np) matches content in
      append_indicator
        (mkIndicator ts cid (fst np) (str_take 200 (str_of_matches matches))
                     confidence loc (fst np)) ;;
      count_pattern (fst np)
  end.

(** [_check_content_for_patterns].  [pattern.findall] raises [TypeError] on
    anything but a string, before any effect. *)
Definition _check_content_for_patterns (cid : string) (content : pyval)
    (loc ts : string) : M unit :=
  match content with
  | PStr s => for_each (fun _ np => check_pattern cid s loc ts np) 0 announcement_patterns
  | _ => raise TypeError
  end.

Definition is_str (v : pyval) : bool := match v with PStr _ => true | _ => false end.
Definition is_list (v : pyval) : bool := match v with PList _ => true | _ => false end.
Definition is_dict (v : pyval) : bool := match v with PDict _ => true | _ => false end.

Definition when (b : bool) (m : M unit) : M unit := if b then m else ret tt.

(** [sum(1 for m in call.messages if m.get('role') == 'user')] *)
Definition count_user (ms : list pyval) : result nat :=
  match map_result (fun m => py_get m "role" PNone) ms with
  | Ok roles => Ok (length (filter (fun r => py_eq_str r "user" = true) roles))
  | Raise e => Raise e
  end.

(** [_analyze_request_for_announcements] *)
Definition _analyze_request_for_announcements (call : APICall) : M unit :=
  when (truthy (system_prompt call))
    (_check_content_for_patterns (call_id call) (system_prompt call)
       "system_prompt" (timestamp call)) ;;
  ms ← lift (py_iter (messages call)) ;
  for_each (fun i message =>
      content ← lift (py_get message "content" (PStr "")) ;
      when (is_str content)
        (_check_content_for_patterns (call_id call) content
           ("message_" +:+ pretty i) (timestamp call)))
    0 ms ;;
  ms' ← lift (py_iter (messages call)) ;
  user_message_count ← lift (count_user ms') ;
  when (bool_decide (1 < user_message_count)%nat)
    (append_indicator
       (mkIndicator (timestamp call) (call_id call) "unexpected_message_count"
          ("Found " +:+ pretty user_message_count +:+ " user messages in single request")
          MEDIUM "message_list" "multiple_user_messages")).

(** [_analyze_response_for_announcements] *)
Definition _analyze_response_for_announcements (call : APICall) : M unit :=
  ms ← lift (py_iter (messages call)) ;
  for_each (fun i content_block =>
      if is_dict content_block then
        text ← lift (py_get content_block "text" (PStr "")) ;
        when (truthy text)
          (_check_content_for_patterns (call_id call) text
             ("response_block_" +:+ pretty i) (timestamp call))
      else
        when (is_str content_block)
          (_check_content_for_patterns (call_id call) content_block
             ("response_content_" +:+ pretty i) (timestamp call)))
    0 ms.

(** ** The report ([generate_report] and its helpers) *)

Record summary := mkSummary {
  total_calls : nat;
  total_indicators : nat;
  high_confidence_indicators : nat;
  unique_patterns : nat
}.

Record timeline_entry := mkTimelineEntry {
  tl_timestamp : string;
  tl_call_id : string;
  tl_type : string;
  tl_model : pyval;
  tl_endpoint : string
}.

Record report := mkReport {
  report_timestamp : string;
  report_summary : summary;
  indicators_by_confidence : gmap string (list AnnouncementIndicator);
  indicators_by_type : gmap string (list AnnouncementIndicator);
  pattern_frequency : gmap string nat;
  timeline : list timeline_entry;
  recommendations : list string
}.

(** [grouped[key(indicator)].append(indicator)] on a [defaultdict(list)],
    for each indicator in turn. *)
Definition group_step (key : AnnouncementIndicator -> string)
    (grouped : gmap string (list AnnouncementIndicator)) (i : AnnouncementIndicator)
    : gmap string (list AnnouncementIndicator) :=
  <[key i := default [] (grouped !! key i) ++ [i]]> grouped.

Definition group_by (key : AnnouncementIndicator -> string)
    (l : list AnnouncementIndicator) : gmap string (list AnnouncementIndicator) :=
  foldl (group_step key) ∅ l.

(** [_group_indicators_by_confidence] *)
Definition _group_indicators_by_confidence (st : interceptor) :=
  group_by confidence (indicators st).

(** [_group_indicators_by_type] *)
Definition _group_indicators_by_type (st : interceptor) :=
  group_by indicator_type (indicators st).

(** [_build_timeline]: [self.calls[-10:]] *)
Definition _build_timeline (st : interceptor) : list timeline_entry :=
  map (fun c => mkTimelineEntry (timestamp c) (call_id c) (type c) (model c) (endpoint c))
      (drop (length (calls st) - 10) (calls st)).

(** [sum(1 for i in self.indicators if i.confidence == 'HIGH')] *)
Definition high_conf (st : interceptor) : nat :=
  length (filter (fun i => confidence i = HIGH) (indicators st)).

Definition rec_high (n : nat) : string :=
  "Found " +:+ pretty n +:+ " high-confidence announcement indicators. "
  +:+ "Review these calls manually for verification.".
Definition rec_banner : string :=
  "Banner-formatted text detected. This is a strong indicator of announcements. "
  +:+ "Check if this content originates from user input or system injection.".
Definition rec_system : string :=
  "System message markers detected. Verify if these are part of normal "
  +:+ "conversation or injected announcements.".
Definition rec_date : string :=
  "Date references found. Announcements often include temporal information. "
  +:+ "Check if these align with known announcement dates.".
Definition rec_none : string :=
  "No strong announcement indicators detected. Continue monitoring or "
  +:+ "adjust detection patterns.".

(** [self.call_patterns.get(name, 0)] *)
Definition pattern_count (st : interceptor) (name : string) : nat :=
  default 0 (call_patterns st !! name).

(** [recommendations.append(r)] under [if b]. *)
Definition add_if (b : bool) (r : string) (recs : list string) : list string :=
  if b then recs ++ [r] else recs.

(** [_generate_recommendations] *)
Definition _generate_recommendations (st : interceptor) : list string :=
  let recs := add_if (bool_decide (0 < high_conf st)%nat) (rec_high (high_conf st)) [] in
  let recs := add_if (bool_decide (0 < pattern_count st "banner_format")%nat) rec_banner recs in
  let recs := add_if (bool_decide (0 < pattern_count st "system_message")%nat) rec_system recs in
  let recs := add_if (bool_decide (0 < pattern_count st "date_reference")%nat) rec_date recs in
  match recs with
  | [] => [rec_none]
  | _ => recs
  end.

(** The report built from the object, with the timestamp [ts]. *)
Definition report_of (ts : string) (st : interceptor) : report :=
  mkReport ts
    (mkSummary (length (calls st)) (length (indicators st)) (high_conf st)
               (size (call_patterns st)))
    (_group_indicators_by_confidence st)
    (_group_indicators_by_type st)
    (call_patterns st)
    (_build_timeline st)
    (_generate_recommendations st).

Definition get_state : M interceptor := fun st => (Ok st, st).

Section Methods.

(** The environment: [datetime.now().isoformat()] and
    [datetime.now().strftime('%Y%m%d')] at the n-th reading of the clock,
    [hashlib.md5(s.encode()).hexdigest()] and [json.dumps]. *)
Variable isoformat : nat -> string.
Variable strftime_day : nat -> string.
Variable md5_hexdigest : string -> string.
Variable json_dumps : pyval -> string.

(** [generate_call_id] *)
Definition generate_call_id (content : string) : M string :=
  n ← tick ;
  ret (str_take 8 (md5_hexdigest (isoformat n +:+ content))).

(** [_log_call] *)
Definition _log_call (call : APICall) : M unit :=
  n ← tick ;
  write_log ("calls_" +:+ strftime_day n +:+ ".jsonl") call.

(** [intercept_request] *)
Definition intercept_request (endpoint : string) (params : gmap string pyval)
    : M string :=
  n ← tick ;
  let timestamp := isoformat n in
  call_id ← generate_call_id (json_dumps (PDict params)) ;
  let messages := default (PList []) (params !! "messages") in
  let system_prompt := default (PStr "") (params !! "system") in
  let model := default (PStr "unknown") (params !! "model") in
  ts ← lift (py_iter (default (PList []) (params !! "tools"))) ;
  tools ← lift (map_result (fun tool => py_get tool "name" (PStr "unknown")) ts) ;
  let call := mkAPICall timestamp call_id "request" endpoint model messages
                        system_prompt tools params in
  append_call call ;;
  _log_call call ;;
  _analyze_request_for_announcements call ;;
  ret call_id.

(** [intercept_response] *)
Definition intercept_response (call_id : string) (response : gmap string pyval)
    : M unit :=
  n ← tick ;
  let timestamp := isoformat n in
  let content := default (PList []) (response !! "content") in
  let messages := if is_list content then content else PList [content] in
  let call := mkAPICall timestamp call_id "response" "beta.messages.create"
                        (default (PStr "unknown") (response !! "model"))
                        messages PNone [] response in
  append_call call ;;
  _log_call call ;;
  _analyze_response_for_announcements call.

(** [generate_report] reads the clock once, for the report's timestamp. *)
Definition generate_report : M report :=
  n ← tick ;
  st ← get_state ;
  ret (report_of (isoformat n) st).

End Methods.

(** ** Notions the properties are stated with *)

Definition registry_names : list string := map fst announcement_patterns.

(** The registry rule [name] matches somewhere in [content]. *)
Definition rule_matches (name content : string) : Prop :=
  Exists (fun np => fst np = name ∧ search (snd np) content = true)
         announcement_patterns.

#[global] Instance rule_matches_dec name content : Decision (rule_matches name content).
Proof. unfold rule_matches. apply _. Defined.

(** The set of distinct registry rules that match in [content]. *)
Definition matching_rules (content : string) : gset string :=
  filter (fun name => rule_matches name content) (list_to_set registry_names).

(** The Content Scanner of the specification: the pairs
    [(rule_id, matched_fragments)], one for each rule with a match. *)
Definition scan (content : string) : list (string * list fragment) :=
  filter (fun rm => snd rm ≠ [])
         (map (fun np => (fst np, findall (snd np) content)) announcement_patterns).

(** The indicator [_check_content_for_patterns] builds for one pair of the
    scanner, found in [content] at [loc]. *)
Definition indicator_for (cid content loc ts : string)
    (rm : string * list fragment) : AnnouncementIndicator :=
  mkIndicator ts cid (fst rm) (str_take 200 (str_of_matches (snd rm)))
              (_determine_confidence (fst rm) (snd rm) content) loc (fst rm).

(** The object after one more indicator of a registry rule: appended and
    counted. *)
Definition record (st : interceptor) (i : AnnouncementIndicator) : interceptor :=
  mkInterceptor (calls st) (indicators st ++ [i])
    (<[indicator_type i := S (default 0 (call_patterns st !! indicator_type i))]>
       (call_patterns st))
    (clock st) (log_lines st) (journal st ++ [JIndicator i]).

(** A request payload that follows the type annotations: [tools] and
    [messages], when present, are lists of dicts, and [system], when present,
    is a string or [None]. *)
Definition list_of_dicts (v : option pyval) : bool :=
  match v with
  | None => true
  | Some (PList l) => forallb is_dict l
  | Some _ => false
  end.

Definition opt_str (v : option pyval) : bool :=
  match v with
  | None | Some PNone | Some (PStr _) => true
  | Some _ => false
  end.

Definition well_typed_request (params : gmap string pyval) : bool :=
  list_of_dicts (params !! "tools") && list_of_dicts (params !! "messages")
  && opt_str (params !! "system").

(** The messages of a request, and those with role [user]. *)
Definition request_messages (params : gmap string pyval) : list pyval :=
  match params !! "messages" with
  | Some (PList l) => l
  | _ => []
  end.

Definition has_role_user (m : pyval) : bool :=
  match m with
  | PDict d => match d !! "role" with Some (PStr r) => String.eqb r "user" | _ => false end
  | _ => false
  end.

Definition user_messages (params : gmap string pyval) : nat :=
  length (filter (fun m => has_role_user m = true) (request_messages params)).

(** The name a tool entry is stored under. *)
Definition tool_name (tool : pyval) : pyval :=
  match tool with
  | PDict d => default (PStr "unknown") (d !! "name")
  | _ => PStr "unknown"
  end.

Definition request_tools (params : gmap string pyval) : list pyval :=
  match params !! "tools" with
  | Some (PList l) => l
  | _ => []
  end.

(** The indicators the scan of a value records: those of its text when it is
    a string. *)
Definition content_indicators (cid ts loc : string) (v : pyval)
    : list AnnouncementIndicator :=
  match v with
  | PStr s => map (indicator_for cid s loc ts) (scan s)
  | _ => []
  end.

(** The indicators a request's analysis records for the system prompt, for
    the messages from index [i] on, and for the count [n] of user messages. *)
Definition system_indicators (c : APICall) : list AnnouncementIndicator :=
  if truthy (system_prompt c)
  then content_indicators (call_id c) (timestamp c) "system_prompt" (system_prompt c)
  else [].

Definition message_content (m : pyval) : pyval :=
  match m with
  | PDict d => default (PStr "") (d !! "content")
  | _ => PNone
  end.

Fixpoint message_indicators (c : APICall) (i : nat) (ms : list pyval)
    : list AnnouncementIndicator :=
  match ms with
  | [] => []
  | m :: ms' =>
      content_indicators (call_id c) (timestamp c) ("message_" +:+ pretty i)
                         (message_content m)
      ++ message_indicators c (S i) ms'
  end.

Definition synthetic_indicators (c : APICall) (n : nat) : list AnnouncementIndicator :=
  if bool_decide (1 < n)%nat
  then [ mkIndicator (timestamp c) (call_id c) "unexpected_message_count"
           ("Found " +:+ pretty n +:+ " user messages in single request")
           MEDIUM "message_list" "multiple_user_messages" ]
  else [].

Definition synthetic (i : AnnouncementIndicator) : Prop :=
  indicator_type i = "unexpected_message_count".

#[global] Instance synthetic_dec i : Decision (synthetic i).
Proof. unfold synthetic. apply _. Defined.

Definition journal_calls (j : list entry) : list APICall :=
  omap (fun e => match e with JCall c => Some c | _ => None end) j.

Definition journal_indicators (j : list entry) : list AnnouncementIndicator :=
  omap (fun e => match e with JIndicator i => Some i | _ => None end) j.

(** Every indicator of the journal comes after a call with its identifier:
    at the moment it was appended, the calls ledger (the calls of the journal
    so far) had a call with that [call_id]. *)
Definition journal_ok (j : list entry) : Prop :=
  ∀ pre i post, j = pre ++ JIndicator i :: post →
    ∃ c, c ∈ journal_calls pre ∧ call_id c = ind_call_id i.

(** The journal is the history of the two ledgers. *)
Definition journal_wf (st : interceptor) : Prop :=
  journal_ok (journal st) ∧
  calls st = journal_calls (journal st) ∧
  indicators st = journal_indicators (journal st).

(** While the call [cid] is analyzed, it is in the ledger. *)
Definition analyzing (cid : string) (st : interceptor) : Prop :=
  journal_wf st ∧ ∃ c, c ∈ journal_calls (journal st) ∧ call_id c = cid.

(** [sum(w(v) for v in m.values())] *)
Definition map_sum {A} (w : A → nat) (m : gmap string A) : nat :=
  sum_list_with (fun kv => w (snd kv)) (map_to_list m).

(** [sum(len(v) for v in grouped.values())] *)
Definition sum_sizes (g : gmap string (list AnnouncementIndicator)) : nat :=
  map_sum length g.

(** [sum(frequency.values())] *)
Definition sum_values (m : gmap string nat) : nat := map_sum id m.

(** The number of indicators of type [name]. *)
Definition type_count (name : string) (l : list AnnouncementIndicator) : nat :=
  length (filter (fun i => indicator_type i = name) l).

(** The group of the indicators whose key is [k], or no group when there is
    none. *)
Definition group_of (key : AnnouncementIndicator → string) (k : string)
    (l : list AnnouncementIndicator) : option (list AnnouncementIndicator) :=
  match filter (fun i => key i = k) l with
  | [] => None
  | g => Some g
  end.

(** [call_patterns] counts, rule by rule, the indicators of the registry
    rules, and only those. *)
Definition counted (st : interceptor) : Prop :=
  ∀ name, call_patterns st !! name =
    if bool_decide (name ∈ registry_names)
    then match type_count name (indicators st) with 0 => None | n => Some n end
    else None.

(** The invariant of the ledger behind the report's counts. *)
Definition ledger_inv (st : interceptor) : Prop :=
  counted st ∧
  Forall (fun i => indicator_type i ∈ registry_names ∨ synthetic i) (indicators st) ∧
  sum_values (call_patterns st) =
    length (filter (fun i => indicator_type i ∈ registry_names) (indicators st)).

Section Ledger.

Variable isoformat : nat -> string.
Variable strftime_day : nat -> string.
Variable md5_hexdigest : string -> string.
Variable json_dumps : pyval -> string.

(** The call record [intercept_request] builds from [params] in state [st]. *)
Definition request_call (endpoint : string) (params : gmap string pyval)
    (st : interceptor) : APICall :=
  mkAPICall (isoformat (clock st))
    (str_take 8 (md5_hexdigest (isoformat (S (clock st)) +:+ json_dumps (PDict params))))
    "request" endpoint
    (default (PStr "unknown") (params !! "model"))
    (default (PList []) (params !! "messages"))
    (default (PStr "") (params !! "system"))
    (map tool_name (request_tools params))
    params.

(** The states of the object after any sequence of operations, whether they
    returned or raised. *)
Inductive reachable : interceptor -> Prop :=
| reach_init : reachable init
| reach_request st endpoint params :
    reachable st ->
    reachable (snd (intercept_request isoformat strftime_day md5_hexdigest
                      json_dumps endpoint params st))
| reach_response st cid response :
    reachable st ->
    reachable (snd (intercept_response isoformat strftime_day cid response st))
| reach_report st :
    reachable st ->
    reachable (snd (generate_report isoformat st)).

End Ledger.

(** ** Sample environment and payloads *)

Definition env_iso (n : nat) : string := "2025-10-16T10:00:0" +:+ pretty n.
Definition env_day (n : nat) : string := "20251016".
Definition env_md5 (s : string) : string := "9e107d9d372bb6826bd81d3542a419d6".
Definition env_json (v : pyval) : string := "{}".

Definition text_block (s : string) : pyval :=
  PDict {[ "type" := PStr "text"; "text" := PStr s ]}.

Definition message (role content : string) : pyval :=
  PDict {[ "role" := PStr role; "content" := PStr content ]}.

(** The system prompt of scenario A, with the banner of an announcement. *)
Definition scenario_a_system : string :=
  "You are a helpful coding assistant.

*** IMPORTANT ANNOUNCEMENT ***
Starting today, all users should be aware of new context management features.
This update is effective 10/16/2025.
*** END ANNOUNCEMENT ***

Continue assisting the user with their coding tasks.".

Definition scenario_b_text : string :=
  "[SYSTEM] Your quota is sufficient. Version 2.1.0 now available.".

Definition scenario_b_response : gmap string pyval :=
  {[ "model" := PStr "claude-haiku-3-5-20241022";
     "content" := PList [text_block scenario_b_text] ]}.

Definition plain_request : gmap string pyval :=
  {[ "model" := PStr "claude-sonnet-4-20250514";
     "messages" := PList [message "user" "Hello, can you help me with a task?"];
     "system" := PStr "You are a helpful coding assistant.";
     "tools" := PList [PDict {[ "name" := PStr "Read" ]}; PDict {[ "name" := PStr "Write" ]}] ]}.

Definition plain_response : gmap string pyval :=
  {[ "model" := PStr "claude-sonnet-4-20250514";
     "content" := PList [text_block "Of course! I'd be happy to help you with your task."] ]}.

(** Scenario C: a plain request and its plain response. *)
Definition scenario_c_state : interceptor :=
  snd (intercept_response env_iso env_day "9e107d9d" plain_response
         (snd (intercept_request env_iso env_day env_md5 env_json
                 "beta.messages.create" plain_request init))).

(** A request with two user messages, an unnamed tool, and neither [system]
    nor [model]. *)
Definition two_user_request : gmap string pyval :=
  {[ "messages" := PList [message "user" "first"; message "user" "second"];
     "tools" := PList [PDict ∅] ]}.

Definition two_user_state : interceptor :=
  snd (intercept_request env_iso env_day env_md5 env_json
         "beta.messages.create" two_user_request init).

(** Scenario B after it: the response with the bracketed tag. *)
Definition scenario_b_state : interceptor :=
  snd (intercept_response env_iso env_day "9e107d9d" scenario_b_response
         two_user_state).

(** Scenario A: the request whose system prompt has the banner. *)
Definition scenario_a_request : gmap string pyval :=
  {[ "model" := PStr "claude-sonnet-4-20250514";
     "messages" := PList [message "user" "Continue with the previous task"];
     "system" := PStr scenario_a_system;
     "tools" := PList [PDict {[ "name" := PStr "Read" ]}; PDict {[ "name" := PStr "Write" ]}] ]}.

(** A request outside the annotations: the system prompt is a list of
    blocks. *)
Definition block_system_request : gmap string pyval :=
  {[ "messages" := PList [message "user" "first"; message "user" "second"];
     "system" := PList [text_block "You are a helpful coding assistant."] ]}.

(** A text with thirty matches of one rule: the text of its matches has 300
    characters. *)
Definition thirty_urgent : string :=
  "urgent urgent urgent urgent urgent urgent urgent urgent urgent urgent "
  +:+ "urgent urgent urgent urgent urgent urgent urgent urgent urgent urgent "
  +:+ "urgent urgent urgent urgent urgent urgent urgent urgent urgent urgent".


(** [m], started in a state with [P], ends in a state with [Q], whether it
    returns or raises. *)
Definition hoare {A} (P : interceptor → Prop) (m : M A) (Q : interceptor → Prop) : Prop :=
  ∀ st, P st → Q (snd (m st)).

(** ** Further notions: the shape of what the methods append *)

(** An indicator as the scan of some text builds it. *)
Definition scanned_form (i : AnnouncementIndicator) : Prop :=
  ∃ cid s loc ts rm, rm ∈ scan s ∧ i = indicator_for cid s loc ts rm.

(** The indicator for more than one user message. *)
Definition synthetic_form (i : AnnouncementIndicator) : Prop :=
  ∃ ts cid n, (1 < n)%nat ∧
    i = mkIndicator ts cid "unexpected_message_count"
          ("Found " +:+ pretty n +:+ " user messages in single request")
          MEDIUM "message_list" "multiple_user_messages".

(** What can be read off any recorded indicator. *)
Definition indicator_wf (i : AnnouncementIndicator) : Prop :=
  (indicator_type i ∈ registry_names ∧
   pattern_matched i = indicator_type i ∧
   confidence i ∈ [HIGH; MEDIUM; LOW] ∧
   (indicator_type i = "banner_format" ∨ indicator_type i = "system_message" →
      confidence i = HIGH) ∧
   (String.length (content i) ≤ 200)%nat)
  ∨
  (indicator_type i = "unexpected_message_count" ∧
   confidence i = MEDIUM ∧
   location i = "message_list" ∧
   pattern_matched i = "multiple_user_messages").

(** [st'] extends [st]: the calls and indicators of [st] are kept, in place,
    the calls [cs] and the indicators [ins] come after them, and no count of
    the frequency table goes down. *)
Definition extends_with (cs : list APICall) (ins : list AnnouncementIndicator)
    (st st' : interceptor) : Prop :=
  calls st' = calls st ++ cs ∧
  indicators st' = indicators st ++ ins ∧
  ∀ name, (pattern_count st name ≤ pattern_count st' name)%nat.

(** The content blocks of a response: the list under [content], a single
    value as a list of one, nothing when [content] is missing. *)
Definition response_blocks (response : gmap string pyval) : list pyval :=
  match response !! "content" with
  | None => []
  | Some (PList l) => l
  | Some v => [v]
  end.

(** A block the response analysis can handle: anything, but the text of a
    dict block is a string when it is truthy. *)
Definition typed_block (b : pyval) : bool :=
  match b with
  | PDict d =>
      match d !! "text" with
      | None => true
      | Some v => is_str v || negb (truthy v)
      end
  | _ => true
  end.

(** The indicators the response analysis records for the block [b] at
    position [i]. *)
Definition block_indicators (c : APICall) (i : nat) (b : pyval)
    : list AnnouncementIndicator :=
  match b with
  | PDict d =>
      let text := default (PStr "") (d !! "text") in
      if truthy text
      then content_indicators (call_id c) (timestamp c)
             ("response_block_" +:+ pretty i) text
      else []
  | PStr _ =>
      content_indicators (call_id c) (timestamp c)
        ("response_content_" +:+ pretty i) b
  | _ => []
  end.

Fixpoint response_indicators (c : APICall) (i : nat) (bs : list pyval)
    : list AnnouncementIndicator :=
  match bs with
  | [] => []
  | b :: bs' => block_indicators c i b ++ response_indicators c (S i) bs'
  end.

Section Simulation.

Variable isoformat : nat -> string.
Variable strftime_day : nat -> string.
Variable md5_hexdigest : string -> string.
Variable json_dumps : pyval -> string.

(** The call record [intercept_response] builds in state [st]. *)
Definition response_call (cid : string) (response : gmap string pyval)
    (st : interceptor) : APICall :=
  mkAPICall (isoformat (clock st)) cid "response" "beta.messages.create"
    (default (PStr "unknown") (response !! "model"))
    (PList (response_blocks response)) PNone [] response.

(** The state in which a call is analyzed: the call appended and logged,
    after [n] readings of the clock. *)
Definition analysis_state (st : interceptor) (n : nat) (c : APICall) : interceptor :=
  mkInterceptor (calls st ++ [c]) (indicators st) (call_patterns st)
    (n + clock st)
    (log_lines st ++ [("calls_" +:+ strftime_day (n + clock st - 1) +:+ ".jsonl", c)])
    (journal st ++ [JCall c]).

(** The payloads of [simulate_intercepted_calls]. *)
Definition continue_response : gmap string pyval :=
  {[ "model" := PStr "claude-sonnet-4-20250514";
     "content" := PList [text_block "I'll continue helping with your task."] ]}.

Definition quota_request : gmap string pyval :=
  {[ "model" := PStr "claude-haiku-3-5-20241022";
     "messages" := PList [message "user" "quota"];
     "system" := PStr "Check quota." ]}.

(** [simulate_intercepted_calls]: three requests, each followed by its
    response under the identifier the request returned.  (The two lines it
    prints first are not part of the state.) *)
Definition simulate_intercepted_calls : M unit :=
  call_id_1 ← intercept_request isoformat strftime_day md5_hexdigest json_dumps
                "beta.messages.create" plain_request ;
  intercept_response isoformat strftime_day call_id_1 plain_response ;;
  call_id_2 ← intercept_request isoformat strftime_day md5_hexdigest json_dumps
                "beta.messages.create" scenario_a_request ;
  intercept_response isoformat strftime_day call_id_2 continue_response ;;
  call_id_3 ← intercept_request isoformat strftime_day md5_hexdigest json_dumps
                "beta.messages.create" quota_request ;
  intercept_response isoformat strftime_day call_id_3 scenario_b_response.

End Simulation.

(** While the call [c] is analyzed from [st]: [c] is the one call appended and
    the indicators appended so far carry its identifier and timestamp and
    have the form [form]. *)
Definition analysis_of (form : AnnouncementIndicator → Prop)
    (st : interceptor) (c : APICall) (st' : interceptor) : Prop :=
  ∃ ins, extends_with [c] ins st st' ∧
    Forall (fun i => ind_call_id i = call_id c ∧ ind_timestamp i = timestamp c ∧
                     form i) ins.

(** The order of the confidence levels: LOW below MEDIUM below HIGH. *)
Definition confidence_rank (level : string) : nat :=
  if String.eqb level HIGH then 2
  else if String.eqb level MEDIUM then 1
  else 0.

(** Payloads for the properties above. *)

(** A response with a text block, a string block, a number and a dict
    without text. *)
Definition mixed_response : gmap string pyval :=
  {[ "content" := PList [ text_block "[ADMIN] notice"; PStr "This is urgent";
                          PInt 3; PDict ∅ ] ]}.

(** A response whose content is a string, not a list. *)
Definition bare_response : gmap string pyval :=
  {[ "content" := PStr "Version 1.2 is urgent" ]}.

(** * Properties *)

(** ** The matcher *)

Lemma eat_length fl t p s p' s' :
  eat fl t p s = Some (p', s') → (String.length s' ≤ String.length s)%nat.
Proof.
  revert p s. induction t as [|c t IH]; intros p s; simpl.
  - intros [= _ ->]. lia.
  - destruct s as [|d s]; [discriminate|].
    destruct (char_eq fl d c); [|discriminate].
    intros H. apply IH in H. simpl. lia.
Qed.

Lemma orelse_some {A} (x : option A) (y : unit → option A) (a : A) :
  orelse x y = Some a → x = Some a ∨ y tt = Some a.
Proof. destruct x; simpl; auto. Qed.

Lemma rep_unfold fl cs greedy k cp lo hi p s :
  rep fl cs greedy k cp lo hi p s =
    let more (_ : unit) :=
      match s with
      | String c s' =>
          if may_repeat hi && cset_match fl cs c
          then rep fl cs greedy k cp (pred lo) (dec_hi hi) (Some c) s'
          else None
      | EmptyString => None
      end in
    match lo with
    | S _ => more tt
    | O =>
        if greedy then orelse (more tt) (fun _ => k (MState p s cp))
        else orelse (k (MState p s cp)) more
    end.
Proof. by destruct s. Qed.

(** A repetition hands over to its continuation after at least [lo]
    characters. *)
Lemma rep_progress fl cs greedy k cp s :
  ∀ lo hi p st', rep fl cs greedy k cp lo hi p s = Some st' →
    ∃ mid, k mid = Some st' ∧
      (String.length (rest mid) + lo ≤ String.length s)%nat.
Proof.
  induction s as [|c s IH]; intros lo hi p st' H;
    rewrite rep_unfold in H; cbv zeta beta in H.
  - destruct lo; [|discriminate].
    destruct greedy; apply orelse_some in H as [H|H]; try discriminate;
      eexists; (split; [exact H|simpl; lia]).
  - assert (∀ lo', (if may_repeat hi && cset_match fl cs c
                    then rep fl cs greedy k cp lo' (dec_hi hi) (Some c) s
                    else None) = Some st' →
              ∃ mid, k mid = Some st' ∧
                (String.length (rest mid) + lo' ≤ String.length s)%nat) as Hmore.
    { intros lo' Hm. destruct (may_repeat hi && cset_match fl cs c); [|discriminate].
      by apply IH in Hm. }
    destruct lo as [|lo].
    + destruct greedy; apply orelse_some in H as [H|H];
        try (apply Hmore in H as (mid & Hk & Hl); exists mid; split; [done|simpl; lia]);
        eexists; (split; [exact H|simpl; lia]).
    + apply Hmore in H as (mid & Hk & Hl). exists mid. split; [done|simpl in *; lia].
Qed.

(** A match of [r] hands over to its continuation after at least
    [min_len r] characters. *)
Lemma run_progress fl r :
  ∀ k st st', run fl r k st = Some st' →
    ∃ mid, k mid = Some st' ∧
      (String.length (rest mid) + min_len r ≤ String.length (rest st))%nat.
Proof.
  induction r as [|cs|r1 IH1 r2 IH2|r1 IH1 r2 IH2|lo hi greedy cs|n r IH|n|];
    intros k st st' H; simpl in H.
  - exists st. split; [done|simpl; lia].
  - destruct (rest st) as [|c s] eqn:Hs; [discriminate|].
    destruct (cset_match fl cs c); [|discriminate].
    eexists. split; [exact H|simpl; lia].
  - apply IH1 in H as (mid1 & H & Hl1). apply IH2 in H as (mid & H & Hl2).
    exists mid. split; [done|simpl; lia].
  - apply orelse_some in H as [H|H]; [apply IH1 in H|apply IH2 in H];
      destruct H as (mid & H & Hl); exists mid; (split; [done|simpl; lia]).
  - by apply rep_progress in H.
  - apply IH in H as (mid & H & Hl). eexists. split; [exact H|simpl; lia].
  - destruct (get_cap n (caps st)) as [t|]; [|discriminate].
    destruct (eat fl t (prev st) (rest st)) as [[p s']|] eqn:He; [|discriminate].
    apply eat_length in He. eexists. split; [exact H|simpl; lia].
  - destruct (at_boundary st); [|discriminate].
    exists st. split; [done|simpl; lia].
Qed.

Lemma str_take_length_le n s :
  (n ≤ String.length s)%nat → String.length (str_take n s) = n.
Proof.
  revert s. induction n as [|n IH]; intros [|c s]; simpl; try lia.
  intros H. rewrite IH; lia.
Qed.

(** The text of a match is at least [min_len] characters long. *)
Lemma match_here_length p pv s m :
  match_here p pv s = Some m →
  (min_len (body p) ≤ String.length (fst m))%nat.
Proof.
  unfold match_here.
  destruct (run _ _ _ _) as [st'|] eqn:Hrun; [|discriminate].
  intros [= <-]. apply run_progress in Hrun as (mid & [= ->] & Hl).
  simpl in *. unfold consumed. simpl. rewrite str_take_length_le; lia.
Qed.

(** No pattern of the registry matches the empty string. *)
Lemma registry_match_nonempty name p pv s m :
  (name, p) ∈ announcement_patterns →
  match_here p pv s = Some m → fst m ≠ "".
Proof.
  intros Hin Hm. apply match_here_length in Hm.
  assert (Forall (fun np => (1 ≤ min_len (body (snd np)))%nat) announcement_patterns)
    as Hall by (repeat constructor; vm_compute; lia).
  rewrite Forall_forall in Hall. specialize (Hall _ Hin). simpl in Hall.
  destruct (fst m); [simpl in Hm; lia|done].
Qed.

(** The matches in the system prompt of scenario A, as [str] shows them. *)
Example scenario_a_scan :
  map (fun rm => (fst rm, str_of_matches (snd rm))) (scan scenario_a_system) =
    [ ("banner_format",
       "[('***', 'IMPORTANT ANNOUNCEMENT'), ('***', 'END ANNOUNCEMENT')]");
      ("announcement_keyword",
       "['IMPORTANT', 'ANNOUNCEMENT', 'update', 'ANNOUNCEMENT']");
      ("date_reference", "['effective']") ].
Proof. vm_compute. reflexivity. Qed.

(** [findall] finds something exactly when [search] does. *)
Lemma findall_from_nil_iff p pv s :
  findall_from p 0 pv s = [] ↔ search_from p pv s = None.
Proof.
  revert pv. induction s as [|c s IH]; intros pv; simpl;
    destruct (match_here p pv _); auto; done.
Qed.

Lemma findall_search p s : findall p s ≠ [] ↔ search p s = true.
Proof.
  unfold findall, search. rewrite findall_from_nil_iff.
  destruct (search_from p None s); split; congruence.
Qed.

(** ** Counting the rules that match *)

Lemma registry_names_nodup : NoDup registry_names.
Proof. compute_done. Qed.

Lemma filter_ext_elem {A} (P Q : A → Prop) `{∀ x, Decision (P x)}
    `{∀ x, Decision (Q x)} (l : list A) :
  (∀ x, x ∈ l → (P x ↔ Q x)) → filter P l = filter Q l.
Proof.
  induction l as [|a l IH]; intros Hpq; [done|].
  rewrite !filter_cons.
  rewrite IH by (intros x Hx; apply Hpq; by right).
  pose proof (Hpq a (list_elem_of_here _ _)) as Ha.
  destruct (decide (P a)), (decide (Q a)); tauto || done.
Qed.

Lemma count_matching (l : list (string * pattern)) (c : string) :
  NoDup (map fst l) →
  length (filter (fun name =>
            Exists (fun np => fst np = name ∧ search (snd np) c = true) l)
          (map fst l))
  = length (filter (fun np => search (snd np) c = true) l).
Proof.
  induction l as [|[n p] l IH]; intros Hnd; [done|].
  apply NoDup_cons in Hnd as [Hn Hnd]. simpl.
  rewrite !filter_cons. simpl.
  rewrite (filter_ext_elem _
             (fun name => Exists (fun np => fst np = name ∧ search (snd np) c = true) l)).
  2:{ intros m Hm. rewrite Exists_cons. simpl. split; [|by right].
      intros [[-> _]|?]; [done|assumption]. }
  specialize (IH Hnd).
  destruct (decide (Exists _ _)) as [He|He], (decide (search p c = true)) as [Hs|Hs];
    simpl; try lia.
  - exfalso. apply Exists_cons in He as [[_ ?]|He]; [done|].
    apply Exists_exists in He as ([m q] & Hin & Hm & _). simpl in Hm. subst m.
    apply Hn. apply list_elem_of_fmap. by exists (n, q).
  - exfalso. apply He. by left.
Qed.

Lemma size_matching_rules (content : string) :
  size (matching_rules content) = matching_patterns content.
Proof.
  unfold matching_rules, matching_patterns.
  pose proof registry_names_nodup as Hnd.
  rewrite <- (count_matching announcement_patterns content Hnd).
  fold registry_names. fold (rule_matches) .
  rewrite <- (size_list_to_set (C := gset string)) by by apply NoDup_filter.
  f_equal. apply set_eq. intros x.
  rewrite elem_of_filter, !elem_of_list_to_set, list_elem_of_filter. done.
Qed.

(** A rule that fired on [content] is one of the rules counted for it. *)
Lemma firing_rule_counted name p content :
  (name, p) ∈ announcement_patterns → findall p content ≠ [] →
  name ∈ matching_rules content.
Proof.
  intros Hin Hf. unfold matching_rules. apply elem_of_filter. split.
  - unfold rule_matches. apply Exists_exists. exists (name, p).
    split; [exact Hin|]. split; [reflexivity|].
    apply findall_search. exact Hf.
  - apply elem_of_list_to_set. apply list_elem_of_fmap.
    exists (name, p). split; [reflexivity|exact Hin].
Qed.

Lemma confidence_by_count (content name : string) (matches : list fragment) :
  _determine_confidence name matches content =
    if bool_decide (name = "banner_format" ∨ name = "system_message") then HIGH
    else match size (matching_rules content) with
         | 0 | 1 => LOW
         | 2 => MEDIUM
         | _ => HIGH
         end.
Proof.
  unfold _determine_confidence. rewrite size_matching_rules.
  generalize (matching_patterns content). intros n.
  destruct (bool_decide_reflect (name ∈ ["banner_format"; "system_message"])) as [Hin|Hin].
  - rewrite (bool_decide_eq_true_2 (name = _ ∨ _)); [done|].
    rewrite !elem_of_cons, elem_of_nil in Hin. tauto.
  - rewrite (bool_decide_eq_false_2 (name = _ ∨ _)).
    2:{ contradict Hin. rewrite !elem_of_cons. tauto. }
    destruct n as [|[|[|n]]]; reflexivity.
Qed.

(** C1. For every content and rule identifier, [_determine_confidence] is HIGH
    for [banner_format] and [system_message]; for any other rule it depends on
    the number of distinct registry rules matching somewhere in the content:
    LOW for at most one, MEDIUM for exactly two, HIGH for three or more. *)
Theorem C1_confidence_policy (content name : string) (matches : list fragment) :
  _determine_confidence name matches content =
    if bool_decide (name = "banner_format" ∨ name = "system_message") then HIGH
    else match size (matching_rules content) with
         | 0 | 1 => LOW
         | 2 => MEDIUM
         | _ => HIGH
         end.
Proof. apply confidence_by_count. Qed.

(** C2, as amended. When exactly one registry rule matches in the content,
    scoring that rule yields LOW, unless the rule is [banner_format] or
    [system_message], which score HIGH. *)
Theorem C2_single_rule_confidence (content name : string) (matches : list fragment) :
  matching_rules content = {[ name ]} →
  _determine_confidence name matches content =
    if bool_decide (name = "banner_format" ∨ name = "system_message") then HIGH
    else LOW.
Proof.
  intros Hone. rewrite confidence_by_count, Hone, size_singleton. done.
Qed.

Lemma C2_single_rule_confidence_witness :
  matching_rules "An urgent request" = {[ "urgent_marker" ]} ∧
  _determine_confidence "urgent_marker"
    (findall urgent_marker_re "An urgent request") "An urgent request" = LOW.
Proof.
  split; [vm_compute; reflexivity|].
  apply (C2_single_rule_confidence "An urgent request" "urgent_marker").
  vm_compute; reflexivity.
Defined.

(** The content ["[system]"] matches [system_message] and no other rule, and
    scoring [system_message] for it gives HIGH, not LOW. *)
Lemma C2_counterexample :
  matching_rules "[system]" = {[ "system_message" ]} ∧
  _determine_confidence "system_message"
    (findall system_message_re "[system]") "[system]" ≠ LOW.
Proof. split; [vm_compute; reflexivity|vm_compute; discriminate]. Qed.

(** ** Running the methods *)

Lemma bind_run {A B} (m : M A) (f : A → M B) st :
  (m ≫= f) st =
    match m st with
    | (Ok a, st') => f a st'
    | (Raise e, st') => (Raise e, st')
    end.
Proof. reflexivity. Qed.

Lemma check_pattern_run cid s loc ts np st :
  check_pattern cid s loc ts np st =
    (Ok tt, match findall (snd np) s with
            | [] => st
            | ms => record st (indicator_for cid s loc ts (fst np, ms))
            end).
Proof. unfold check_pattern. destruct (findall (snd np) s); reflexivity. Qed.

Lemma scan_loop_run cid s loc ts (l : list (string * pattern)) i st :
  for_each (fun _ np => check_pattern cid s loc ts np) i l st =
    (Ok tt,
     foldl record st
       (map (indicator_for cid s loc ts)
          (filter (fun rm => snd rm ≠ [])
             (map (fun np => (fst np, findall (snd np) s)) l)))).
Proof.
  revert i st. induction l as [|np l IH]; intros i st; [reflexivity|].
  simpl for_each. rewrite bind_run, check_pattern_run, IH.
  simpl map. rewrite filter_cons. simpl.
  destruct (findall (snd np) s) eqn:Hf; simpl; [reflexivity|].
  reflexivity.
Qed.

Lemma check_content_run cid s loc ts st :
  _check_content_for_patterns cid (PStr s) loc ts st =
    (Ok tt, foldl record st (map (indicator_for cid s loc ts) (scan s))).
Proof. apply scan_loop_run. Qed.

Lemma record_all_indicators st l :
  indicators (foldl record st l) = indicators st ++ l.
Proof.
  revert st. induction l as [|i l IH]; intros st; simpl.
  - by rewrite app_nil_r.
  - rewrite IH. simpl. by rewrite <- app_assoc.
Qed.

Lemma record_all_calls st l : calls (foldl record st l) = calls st.
Proof. revert st. induction l as [|i l IH]; intros st; simpl; [done|by rewrite IH]. Qed.

Lemma record_all_journal st l :
  journal (foldl record st l) = journal st ++ map JIndicator l.
Proof.
  revert st. induction l as [|i l IH]; intros st; simpl.
  - by rewrite app_nil_r.
  - rewrite IH. simpl. by rewrite <- app_assoc.
Qed.

Lemma str_take_length n s : (String.length (str_take n s) ≤ n)%nat.
Proof.
  revert s. induction n as [|n IH]; intros [|c s]; simpl; try lia.
  specialize (IH s). lia.
Qed.






(** Thirty matches of [urgent_marker]: the text of the matches has 300
    characters, of which the indicator keeps the first 200. *)
Example thirty_urgent_truncated :
  map (fun rm => (fst rm, String.length (str_of_matches (snd rm)))) (scan thirty_urgent)
    = [("urgent_marker", 300)] ∧
  map (fun i => (indicator_type i, String.length (content i)))
      (indicators (snd (_check_content_for_patterns "9e107d9d" (PStr thirty_urgent)
                          "message_0" "2025-10-16T10:00:00" init)))
    = [("urgent_marker", 200)].
Proof. vm_compute. split; reflexivity. Qed.

Lemma pretty_0 : pretty 0 = "0".
Proof. reflexivity. Qed.

Lemma lift_run {A} (r : result A) st : lift r st = (r, st).
Proof. reflexivity. Qed.

Lemma ret_run {A} (a : A) st : ret a st = (Ok a, st).
Proof. reflexivity. Qed.

Lemma mret_run {A} (a : A) st : (mret a : M A) st = (Ok a, st).
Proof. reflexivity. Qed.

Lemma when_true m : when true m = m.
Proof. reflexivity. Qed.

Lemma when_false m st : when false m st = (Ok tt, st).
Proof. reflexivity. Qed.

Lemma for_each_cons {A} (f : nat → A → M unit) i x l :
  for_each f i (x :: l) = (f i x ;; for_each f (S i) l).
Proof. reflexivity. Qed.

Lemma for_each_nil {A} (f : nat → A → M unit) i st :
  for_each f i [] st = (Ok tt, st).
Proof. reflexivity. Qed.

Lemma tick_run st :
  tick st = (Ok (clock st),
             mkInterceptor (calls st) (indicators st) (call_patterns st)
                           (S (clock st)) (log_lines st) (journal st)).
Proof. reflexivity. Qed.

Lemma append_call_run c st :
  append_call c st =
    (Ok tt, mkInterceptor (calls st ++ [c]) (indicators st) (call_patterns st)
                          (clock st) (log_lines st) (journal st ++ [JCall c])).
Proof. reflexivity. Qed.

Lemma write_log_run file c st :
  write_log file c st =
    (Ok tt, mkInterceptor (calls st) (indicators st) (call_patterns st)
                          (clock st) (log_lines st ++ [(file, c)]) (journal st)).
Proof. reflexivity. Qed.

(** One step of a run: a bind, a lifted result or a return. *)
Ltac run_step :=
  rewrite ?bind_run, ?lift_run, ?ret_run, ?mret_run, ?when_true, ?when_false,
          ?for_each_cons, ?for_each_nil, ?tick_run, ?append_call_run,
          ?write_log_run;
  cbv beta iota;
  simpl is_dict; simpl is_str; simpl is_list; simpl py_iter; simpl py_get;
  cbv beta iota.

Ltac run := repeat progress run_step.

Lemma analyze_response_text_block call block s st :
  messages call = PList [PDict block] →
  block !! "text" = Some (PStr s) → s ≠ "" →
  _analyze_response_for_announcements call st =
    (Ok tt, foldl record st
              (map (indicator_for (call_id call) s "response_block_0" (timestamp call))
                   (scan s))).
Proof.
  intros Hm Ht Hs. unfold _analyze_response_for_announcements.
  rewrite Hm. run. rewrite Ht. simpl default. run.
  assert (truthy (PStr s) = true) as ->.
  { simpl. destruct (String.eqb_spec s ""); [done|reflexivity]. }
  run. rewrite pretty_0, check_content_run. run. reflexivity.
Qed.

Section Runs.

Variable isoformat : nat -> string.
Variable strftime_day : nat -> string.
Variable md5_hexdigest : string -> string.
Variable json_dumps : pyval -> string.

(** C3. Analyzing a response whose single text block is the text of scenario
    B records two indicators: [system_message] with confidence HIGH and
    [version_info] with confidence MEDIUM; exactly two distinct registry
    rules match that text. *)
Theorem C3_scenario_b st cid (response block : gmap string pyval) :
  response !! "content" = Some (PList [PDict block]) →
  block !! "text" = Some (PStr scenario_b_text) →
  let out := intercept_response isoformat strftime_day cid response st in
  let ts := isoformat (clock st) in
  fst out = Ok tt ∧
  matching_rules scenario_b_text = {[ "system_message"; "version_info" ]} ∧
  indicators (snd out) = indicators st ++
    [ mkIndicator ts cid "system_message" "['[SYSTEM]']" HIGH
                  "response_block_0" "system_message";
      mkIndicator ts cid "version_info" "['Version 2.1']" MEDIUM
                  "response_block_0" "version_info" ].
Proof.
  intros Hc Ht. cbv zeta. unfold intercept_response, _log_call.
  rewrite Hc. simpl default. run.
  erewrite analyze_response_text_block; [|reflexivity|exact Ht|discriminate].
  cbn [fst snd]. split; [reflexivity|].
  split; [vm_compute; reflexivity|].
  rewrite record_all_indicators. cbn [indicators call_id timestamp].
  apply (f_equal (app (indicators st))). vm_compute. reflexivity.
Qed.

End Runs.

Lemma C3_scenario_b_witness :
  let out := intercept_response env_iso env_day "9e107d9d" scenario_b_response init in
  fst out = Ok tt ∧
  matching_rules scenario_b_text = {[ "system_message"; "version_info" ]} ∧
  indicators (snd out) =
    [ mkIndicator "2025-10-16T10:00:00" "9e107d9d" "system_message" "['[SYSTEM]']" HIGH
                  "response_block_0" "system_message";
      mkIndicator "2025-10-16T10:00:00" "9e107d9d" "version_info" "['Version 2.1']" MEDIUM
                  "response_block_0" "version_info" ].
Proof.
  apply (C3_scenario_b env_iso env_day init "9e107d9d" scenario_b_response
           {[ "type" := PStr "text"; "text" := PStr scenario_b_text ]});
    vm_compute; reflexivity.
Defined.

(** ** Invariants of the methods *)

Lemma hoare_bind {A B} (P R Q : interceptor → Prop) (m : M A) (f : A → M B) :
  hoare P m R → (∀ st, R st → Q st) → (∀ a, hoare R (f a) Q) →
  hoare P (m ≫= f) Q.
Proof.
  intros Hm Hrq Hf st HP. rewrite bind_run.
  specialize (Hm st HP). destruct (m st) as [[a|e] st']; simpl in *.
  - by apply Hf.
  - by apply Hrq.
Qed.

Lemma hoare_seq {A B} (I : interceptor → Prop) (m : M A) (f : A → M B) :
  hoare I m I → (∀ a, hoare I (f a) I) → hoare I (m ≫= f) I.
Proof. intros Hm Hf. by apply (hoare_bind I I I). Qed.

Lemma hoare_pure {A} (I : interceptor → Prop) (m : M A) :
  (∀ st, snd (m st) = st) → hoare I m I.
Proof. intros Hm st HI. by rewrite Hm. Qed.

Lemma hoare_lift {A} (I : interceptor → Prop) (r : result A) : hoare I (lift r) I.
Proof. by apply hoare_pure. Qed.

Lemma hoare_ret {A} (I : interceptor → Prop) (a : A) : hoare I (mret a) I.
Proof. by apply hoare_pure. Qed.

Lemma hoare_when (I : interceptor → Prop) b m : hoare I m I → hoare I (when b m) I.
Proof. destruct b; [done|]. intros _. by apply hoare_pure. Qed.

Lemma hoare_for_each {A} (I : interceptor → Prop) (f : nat → A → M unit) i l :
  (∀ i x, hoare I (f i x) I) → hoare I (for_each f i l) I.
Proof.
  intros Hf. revert i. induction l as [|x l IH]; intros i.
  - by apply hoare_pure.
  - rewrite for_each_cons. apply hoare_seq; [apply Hf|]. intros _. apply IH.
Qed.

Lemma scan_names s : Forall (fun rm => fst rm ∈ registry_names) (scan s).
Proof.
  unfold scan, registry_names.
  induction announcement_patterns as [|np l IH]; [constructor|].
  simpl map. rewrite filter_cons.
  destruct (decide _); [constructor|]; simpl.
  - left.
  - eapply Forall_impl; [exact IH|]. intros rm Hrm. by right.
  - eapply Forall_impl; [exact IH|]. intros rm Hrm. by right.
Qed.

(** What holds of every indicator the scan of a content records. *)
Lemma scanned_indicators cid s loc ts :
  Forall (fun i => ind_call_id i = cid ∧ indicator_type i ∈ registry_names ∧
                   location i = loc ∧ ind_timestamp i = ts)
         (map (indicator_for cid s loc ts) (scan s)).
Proof.
  apply Forall_fmap. eapply Forall_impl; [apply scan_names|].
  intros rm Hrm. simpl. done.
Qed.

Section Invariant.

(** An invariant [P] of the object between operations, and [I cid], which
    holds while the call [cid] is being analyzed. *)
Variable P : interceptor → Prop.
Variable I : string → interceptor → Prop.

Hypothesis P_tick : hoare P tick P.
Hypothesis P_call : ∀ c, hoare P (append_call c) (I (call_id c)).
Hypothesis I_tick : ∀ cid, hoare (I cid) tick (I cid).
Hypothesis I_log : ∀ cid file c, hoare (I cid) (write_log file c) (I cid).
Hypothesis I_record : ∀ cid st i,
  ind_call_id i = cid → indicator_type i ∈ registry_names →
  I cid st → I cid (record st i).
Hypothesis I_synthetic : ∀ cid i,
  ind_call_id i = cid → synthetic i →
  hoare (I cid) (append_indicator i) (I cid).
Hypothesis I_done : ∀ cid st, I cid st → P st.

Lemma record_all_inv cid st l :
  Forall (fun i => ind_call_id i = cid ∧ indicator_type i ∈ registry_names) l →
  I cid st → I cid (foldl record st l).
Proof.
  intros Hl. revert st. induction Hl as [|i l [Hc Ht] _ IH]; intros st HI; [done|].
  simpl. apply IH. by apply I_record.
Qed.

Lemma check_content_inv cid v loc ts :
  hoare (I cid) (_check_content_for_patterns cid v loc ts) (I cid).
Proof.
  destruct v; try by apply hoare_pure.
  intros st HI. rewrite check_content_run. simpl.
  apply record_all_inv; [|done].
  eapply Forall_impl; [apply scanned_indicators|]. simpl. tauto.
Qed.

Lemma analyze_request_inv c :
  hoare (I (call_id c)) (_analyze_request_for_announcements c) (I (call_id c)).
Proof.
  unfold _analyze_request_for_announcements.
  apply hoare_seq; [apply hoare_when, check_content_inv|intros _].
  apply hoare_seq; [apply hoare_lift|intros ms].
  apply hoare_seq.
  { apply hoare_for_each. intros i m.
    apply hoare_seq; [apply hoare_lift|intros v].
    apply hoare_when, check_content_inv. }
  intros _.
  apply hoare_seq; [apply hoare_lift|intros ms'].
  apply hoare_seq; [apply hoare_lift|intros n].
  apply hoare_when. by apply I_synthetic.
Qed.

Lemma analyze_response_inv c :
  hoare (I (call_id c)) (_analyze_response_for_announcements c) (I (call_id c)).
Proof.
  unfold _analyze_response_for_announcements.
  apply hoare_seq; [apply hoare_lift|intros ms].
  apply hoare_for_each. intros i b.
  destruct (is_dict b).
  - apply hoare_seq; [apply hoare_lift|intros v].
    apply hoare_when, check_content_inv.
  - apply hoare_when, check_content_inv.
Qed.

Variable isoformat : nat -> string.
Variable strftime_day : nat -> string.
Variable md5_hexdigest : string -> string.
Variable json_dumps : pyval -> string.

Lemma log_call_inv cid c : hoare (I cid) (_log_call strftime_day c) (I cid).
Proof. unfold _log_call. apply hoare_seq; [apply I_tick|intros n; apply I_log]. Qed.

Lemma intercept_request_inv endpoint params :
  hoare P (intercept_request isoformat strftime_day md5_hexdigest json_dumps
             endpoint params) P.
Proof.
  unfold intercept_request, generate_call_id.
  apply hoare_seq; [apply P_tick|intros n].
  apply hoare_seq.
  { apply hoare_seq; [apply P_tick|intros n']. apply hoare_ret. }
  intros cid.
  apply hoare_seq; [apply hoare_lift|intros ts].
  apply hoare_seq; [apply hoare_lift|intros tools].
  set (c := mkAPICall _ _ _ _ _ _ _ _ _).
  apply (hoare_bind P (I (call_id c)) P); [apply P_call|apply I_done|intros _].
  apply (hoare_bind _ (I (call_id c))); [apply log_call_inv|apply I_done|intros _].
  apply (hoare_bind _ (I (call_id c))); [apply analyze_request_inv|apply I_done|intros _].
  intros st HI. apply (I_done (call_id c)). exact HI.
Qed.

Lemma intercept_response_inv cid response :
  hoare P (intercept_response isoformat strftime_day cid response) P.
Proof.
  unfold intercept_response.
  apply hoare_seq; [apply P_tick|intros n].
  set (c := mkAPICall _ _ _ _ _ _ _ _ _).
  apply (hoare_bind P (I (call_id c)) P); [apply P_call|apply I_done|intros _].
  apply (hoare_bind _ (I (call_id c))); [apply log_call_inv|apply I_done|intros _].
  intros st HI. apply (I_done (call_id c)). by apply analyze_response_inv.
Qed.

Lemma generate_report_inv : hoare P (generate_report isoformat) P.
Proof.
  unfold generate_report.
  apply hoare_seq; [apply P_tick|intros n].
  apply hoare_seq; [by apply hoare_pure|intros st]. apply hoare_ret.
Qed.

(** The invariant holds of every reachable state. *)
Lemma reachable_inv st :
  P init →
  reachable isoformat strftime_day md5_hexdigest json_dumps st → P st.
Proof.
  intros Hinit Hr. induction Hr.
  - exact Hinit.
  - by apply intercept_request_inv.
  - by apply intercept_response_inv.
  - by apply generate_report_inv.
Qed.

End Invariant.

(** ** The journal: indicators come after their call *)

Lemma journal_calls_app j1 j2 :
  journal_calls (j1 ++ j2) = journal_calls j1 ++ journal_calls j2.
Proof. apply omap_app. Qed.

Lemma journal_indicators_app j1 j2 :
  journal_indicators (j1 ++ j2) = journal_indicators j1 ++ journal_indicators j2.
Proof. apply omap_app. Qed.

Lemma journal_ok_snoc j e :
  journal_ok j →
  (∀ i, e = JIndicator i → ∃ c, c ∈ journal_calls j ∧ call_id c = ind_call_id i) →
  journal_ok (j ++ [e]).
Proof.
  intros Hj He pre i post Heq.
  destruct post as [|x post _] using rev_ind.
  - apply app_inj_tail in Heq as [-> ->]. by apply He.
  - rewrite app_comm_cons, app_assoc in Heq.
    apply app_inj_tail in Heq as [-> _]. by apply (Hj pre i post).
Qed.

Lemma journal_wf_call st c :
  journal_wf st → analyzing (call_id c) (snd (append_call c st)).
Proof.
  intros (Hok & Hc & Hi). simpl. split; [split; [|split]|]; simpl.
  - apply journal_ok_snoc; [done|]. intros i [=].
  - by rewrite journal_calls_app, Hc.
  - by rewrite journal_indicators_app, app_nil_r.
  - exists c. split; [|done]. rewrite journal_calls_app. simpl.
    apply elem_of_app. right. left.
Qed.

Lemma analyzing_indicator cid st i cp :
  ind_call_id i = cid → analyzing cid st →
  analyzing cid (mkInterceptor (calls st) (indicators st ++ [i]) cp
                   (clock st) (log_lines st) (journal st ++ [JIndicator i])).
Proof.
  intros Hid [(Hok & Hc & Hi) (c & Hin & Hcid)].
  split; [split; [|split]|]; simpl.
  - apply journal_ok_snoc; [done|]. intros i' [= <-]. exists c. by rewrite Hid.
  - by rewrite journal_calls_app, app_nil_r.
  - by rewrite journal_indicators_app, Hi.
  - exists c. split; [|done]. rewrite journal_calls_app. apply elem_of_app. by left.
Qed.

Lemma journal_wf_tick : hoare journal_wf tick journal_wf.
Proof. intros st H. exact H. Qed.

Lemma journal_wf_init : journal_wf init.
Proof. split; [|done]. intros pre i post Heq. by destruct pre. Qed.

Lemma analyzing_tick cid : hoare (analyzing cid) tick (analyzing cid).
Proof. intros st H. exact H. Qed.

Lemma analyzing_log cid file c : hoare (analyzing cid) (write_log file c) (analyzing cid).
Proof. intros st H. exact H. Qed.

Lemma analyzing_record cid st i :
  ind_call_id i = cid → indicator_type i ∈ registry_names →
  analyzing cid st → analyzing cid (record st i).
Proof. intros Hid _. by apply analyzing_indicator. Qed.

Lemma analyzing_synthetic cid i :
  ind_call_id i = cid → synthetic i →
  hoare (analyzing cid) (append_indicator i) (analyzing cid).
Proof. intros Hid _ st. by apply analyzing_indicator. Qed.

Lemma analyzing_done cid st : analyzing cid st → journal_wf st.
Proof. by intros [? _]. Qed.

Section Journal.

Variable isoformat : nat -> string.
Variable strftime_day : nat -> string.
Variable md5_hexdigest : string -> string.
Variable json_dumps : pyval -> string.

(** C7. After any sequence of [intercept_request] and [intercept_response]
    operations, every indicator was appended when the calls ledger already
    had a call with the indicator's call identifier: in the history of the
    two ledgers, each indicator comes after such a call. *)
Theorem C7_indicator_references_call st :
  reachable isoformat strftime_day md5_hexdigest json_dumps st →
  journal_ok (journal st) ∧
  calls st = journal_calls (journal st) ∧
  indicators st = journal_indicators (journal st).
Proof.
  intros Hr.
  exact (reachable_inv journal_wf analyzing journal_wf_tick
           (fun c st => journal_wf_call st c) analyzing_tick analyzing_log
           analyzing_record analyzing_synthetic analyzing_done
           isoformat strftime_day md5_hexdigest json_dumps st journal_wf_init Hr).
Qed.

End Journal.

(** ** Grouping and counting *)

Lemma map_sum_empty {A} (w : A → nat) : map_sum w ∅ = 0.
Proof. unfold map_sum. by rewrite map_to_list_empty. Qed.

Lemma map_sum_insert_fresh {A} (w : A → nat) (m : gmap string A) k v :
  m !! k = None → map_sum w (<[k:=v]> m) = w v + map_sum w m.
Proof. intros Hk. unfold map_sum. by rewrite map_to_list_insert. Qed.

Lemma map_sum_insert {A} (w : A → nat) (m : gmap string A) k v :
  map_sum w (<[k:=v]> m) + from_option w 0 (m !! k) = w v + map_sum w m.
Proof.
  destruct (m !! k) as [old|] eqn:Hk; simpl.
  - assert (delete k m !! k = None) as Hd by apply lookup_delete_eq.
    rewrite <- (insert_delete_eq m).
    rewrite <- (insert_delete_id m k old Hk) at 2.
    rewrite !map_sum_insert_fresh by exact Hd. lia.
  - rewrite map_sum_insert_fresh by done. lia.
Qed.

Lemma sum_sizes_group_step key g i :
  sum_sizes (group_step key g i) = S (sum_sizes g).
Proof.
  unfold sum_sizes, group_step.
  pose proof (map_sum_insert length g (key i) (default [] (g !! key i) ++ [i])) as H.
  rewrite length_app in H. change (length [i]) with 1 in H.
  destruct (g !! key i); cbn [from_option id length] in *; lia.
Qed.

Lemma sum_sizes_foldl key l g :
  sum_sizes (foldl (group_step key) g l) = sum_sizes g + length l.
Proof.
  revert g. induction l as [|i l IH]; intros g; simpl; [lia|].
  rewrite IH, sum_sizes_group_step. lia.
Qed.

Lemma sum_sizes_group_by key l : sum_sizes (group_by key l) = length l.
Proof.
  unfold group_by. rewrite sum_sizes_foldl. unfold sum_sizes.
  by rewrite map_sum_empty.
Qed.

Lemma group_by_snoc key l i :
  group_by key (l ++ [i]) = group_step key (group_by key l) i.
Proof. unfold group_by. by rewrite foldl_app. Qed.

(** Each group is the sub-list of the indicators with its key. *)
Lemma group_by_lookup key l k : group_by key l !! k = group_of key k l.
Proof.
  induction l as [|i l IH] using rev_ind; [done|].
  rewrite group_by_snoc. unfold group_step, group_of.
  rewrite filter_app, filter_cons, filter_nil.
  destruct (decide (key i = k)) as [->|Hne].
  - rewrite lookup_insert_eq, IH. unfold group_of.
    by destruct (filter _ l).
  - rewrite lookup_insert_ne by done. by rewrite app_nil_r.
Qed.

Section Report.

Variable isoformat : nat -> string.

(** C8. For every state of the ledger, the report's [total_indicators] is the
    number of indicators, and it equals the sum of the sizes of the groups of
    [indicators_by_confidence] and the sum of the sizes of the groups of
    [indicators_by_type]; each group is the sub-list of the indicators with
    the group's key, so both groupings partition the indicator list. *)
Theorem C8_groups_partition st :
  ∃ r, fst (generate_report isoformat st) = Ok r ∧
    total_indicators (report_summary r) = length (indicators st) ∧
    sum_sizes (indicators_by_confidence r) = total_indicators (report_summary r) ∧
    sum_sizes (indicators_by_type r) = total_indicators (report_summary r) ∧
    (∀ k, indicators_by_confidence r !! k = group_of confidence k (indicators st)) ∧
    (∀ k, indicators_by_type r !! k = group_of indicator_type k (indicators st)).
Proof.
  eexists. split; [reflexivity|]. simpl.
  unfold _group_indicators_by_confidence, _group_indicators_by_type. simpl.
  rewrite !sum_sizes_group_by.
  repeat split; intros k; apply group_by_lookup.
Qed.

End Report.

(** ** The frequency table counts the indicators of the registry rules *)

Lemma synthetic_not_rule : "unexpected_message_count" ∉ registry_names.
Proof. compute_done. Qed.

Lemma type_count_snoc name l i :
  type_count name (l ++ [i]) =
    type_count name l + (if decide (indicator_type i = name) then 1 else 0).
Proof.
  unfold type_count. rewrite filter_app, length_app, filter_cons, filter_nil.
  by destruct (decide _).
Qed.

Lemma counted_lookup st name :
  counted st → name ∈ registry_names →
  default 0 (call_patterns st !! name) = type_count name (indicators st).
Proof.
  intros Hc Hn. rewrite Hc, bool_decide_eq_true_2 by done.
  by destruct (type_count _ _).
Qed.

Lemma counted_record st i :
  indicator_type i ∈ registry_names → counted st → counted (record st i).
Proof.
  intros Hn Hc name. simpl. rewrite type_count_snoc.
  destruct (decide (indicator_type i = name)) as [<-|Hne].
  - rewrite lookup_insert_eq, bool_decide_eq_true_2 by done.
    rewrite (counted_lookup st) by done.
    by replace (type_count (indicator_type i) (indicators st) + 1)
      with (S (type_count (indicator_type i) (indicators st))) by lia.
  - rewrite lookup_insert_ne by done. rewrite Nat.add_0_r. apply Hc.
Qed.

Lemma counted_synthetic st i :
  synthetic i → counted st → counted (snd (append_indicator i st)).
Proof.
  intros Hs Hc name. simpl. rewrite type_count_snoc, (Hc name).
  destruct (bool_decide_reflect (name ∈ registry_names)) as [Hn|Hn]; [|done].
  destruct (decide (indicator_type i = name)) as [<-|Hne].
  - rewrite Hs in Hn. by destruct synthetic_not_rule.
  - by rewrite Nat.add_0_r.
Qed.

Lemma sum_values_count m name :
  sum_values (<[name := S (default 0 (m !! name))]> m) = S (sum_values m).
Proof.
  unfold sum_values.
  pose proof (map_sum_insert id m name (S (default 0 (m !! name)))) as H.
  destruct (m !! name); cbn [from_option id] in *; lia.
Qed.

Lemma ledger_inv_record st i :
  indicator_type i ∈ registry_names → ledger_inv st → ledger_inv (record st i).
Proof.
  intros Hn (Hc & Ht & Hs). split; [by apply counted_record|]. split; simpl.
  - apply Forall_app. split; [done|]. constructor; [by left|constructor].
  - rewrite sum_values_count, Hs, filter_app, length_app, filter_cons, filter_nil.
    rewrite decide_True by done. simpl. lia.
Qed.

Lemma ledger_inv_synthetic i :
  synthetic i → hoare ledger_inv (append_indicator i) ledger_inv.
Proof.
  intros Hsy st (Hc & Ht & Hs). split; [by apply counted_synthetic|]. split; simpl.
  - apply Forall_app. split; [done|]. constructor; [by right|constructor].
  - rewrite Hs, filter_app, length_app, filter_cons, filter_nil.
    rewrite decide_False; [simpl; lia|].
    rewrite Hsy. apply synthetic_not_rule.
Qed.

Lemma ledger_inv_init : ledger_inv init.
Proof.
  split; [|split]; simpl.
  - intros name. unfold init. cbn [call_patterns indicators].
    rewrite lookup_empty. by destruct (bool_decide _).
  - constructor.
  - unfold sum_values. by rewrite map_sum_empty.
Qed.

Lemma ledger_inv_tick : hoare ledger_inv tick ledger_inv.
Proof. intros st H. exact H. Qed.

Lemma ledger_inv_call c : hoare ledger_inv (append_call c) ledger_inv.
Proof. intros st H. exact H. Qed.

Lemma ledger_inv_log file c : hoare ledger_inv (write_log file c) ledger_inv.
Proof. intros st H. exact H. Qed.

Section Counts.

Variable isoformat : nat -> string.
Variable strftime_day : nat -> string.
Variable md5_hexdigest : string -> string.
Variable json_dumps : pyval -> string.

Lemma reachable_ledger_inv st :
  reachable isoformat strftime_day md5_hexdigest json_dumps st → ledger_inv st.
Proof.
  intros Hr.
  exact (reachable_inv ledger_inv (fun _ => ledger_inv) ledger_inv_tick
           ledger_inv_call (fun _ => ledger_inv_tick)
           (fun _ => ledger_inv_log)
           (fun _ st i _ Hn => ledger_inv_record st i Hn)
           (fun _ i _ => ledger_inv_synthetic i)
           (fun _ st H => H)
           isoformat strftime_day md5_hexdigest json_dumps st ledger_inv_init Hr).
Qed.

End Counts.

(** ** Recommendations *)

Lemma rec_none_high n : rec_none ≠ rec_high n.
Proof. unfold rec_none, rec_high. cbn [String.append]. discriminate. Qed.

Lemma rec_none_banner : rec_none ≠ rec_banner.
Proof. vm_compute. discriminate. Qed.

Lemma rec_none_system : rec_none ≠ rec_system.
Proof. vm_compute. discriminate. Qed.

Lemma rec_none_date : rec_none ≠ rec_date.
Proof. vm_compute. discriminate. Qed.

Lemma add_if_absent b r recs :
  rec_none ≠ r → rec_none ∉ recs → rec_none ∉ add_if b r recs.
Proof.
  intros Hr Hrecs. destruct b; simpl; [|done].
  rewrite elem_of_app, list_elem_of_singleton. tauto.
Qed.

Lemma add_if_nonempty b r recs : recs ≠ [] → add_if b r recs ≠ [].
Proof. destruct b, recs; simpl; congruence. Qed.

Lemma add_if_true r recs : add_if true r recs ≠ [].
Proof. destruct recs; simpl; congruence. Qed.

(** The four thresholds decide the recommendations: none reached gives the
    single "no strong indicators" message, any reached leaves it out. *)
Lemma recommendations_cases st :
  (high_conf st = 0 → pattern_count st "banner_format" = 0 →
   pattern_count st "system_message" = 0 → pattern_count st "date_reference" = 0 →
   _generate_recommendations st = [rec_none]) ∧
  ((0 < high_conf st ∨ 0 < pattern_count st "banner_format" ∨
    0 < pattern_count st "system_message" ∨ 0 < pattern_count st "date_reference")%nat →
   rec_none ∉ _generate_recommendations st).
Proof.
  unfold _generate_recommendations. split.
  - intros -> -> -> ->. reflexivity.
  - intros Hpos.
    set (r1 := add_if _ (rec_high _) []).
    set (r2 := add_if _ rec_banner r1).
    set (r3 := add_if _ rec_system r2).
    set (r4 := add_if _ rec_date r3).
    assert (rec_none ∉ r4) as Habs.
    { apply add_if_absent; [apply rec_none_date|].
      apply add_if_absent; [apply rec_none_system|].
      apply add_if_absent; [apply rec_none_banner|].
      apply add_if_absent; [apply rec_none_high|]. apply not_elem_of_nil. }
    assert (r4 ≠ []) as Hne.
    { subst r4 r3 r2 r1. destruct Hpos as [H|[H|[H|H]]].
      - do 3 apply add_if_nonempty. rewrite (bool_decide_eq_true_2 _ H).
        apply add_if_true.
      - do 2 apply add_if_nonempty. rewrite (bool_decide_eq_true_2 _ H).
        apply add_if_true.
      - apply add_if_nonempty. rewrite (bool_decide_eq_true_2 _ H).
        apply add_if_true.
      - rewrite (bool_decide_eq_true_2 _ H). apply add_if_true. }
    by destruct r4.
Qed.

Lemma type_count_pos name l :
  Exists (fun i => indicator_type i = name) l → (0 < type_count name l)%nat.
Proof.
  intros He. apply Exists_exists in He as (i & Hin & Hi).
  unfold type_count.
  assert (i ∈ filter (fun i => indicator_type i = name) l) as Hf
    by by apply list_elem_of_filter.
  destruct (filter _ l); [by apply elem_of_nil in Hf|simpl; lia].
Qed.

Lemma high_conf_pos st :
  Exists (fun i => confidence i = HIGH) (indicators st) → (0 < high_conf st)%nat.
Proof.
  intros He. apply Exists_exists in He as (i & Hin & Hi).
  unfold high_conf.
  assert (i ∈ filter (fun i => confidence i = HIGH) (indicators st)) as Hf
    by by apply list_elem_of_filter.
  destruct (filter _ _); [by apply elem_of_nil in Hf|simpl; lia].
Qed.

Section Recommendations.

Variable isoformat : nat -> string.
Variable strftime_day : nat -> string.
Variable md5_hexdigest : string -> string.
Variable json_dumps : pyval -> string.

(** C9. In every reachable state: if no indicator was recorded, the
    recommendations are exactly the single "no strong indicators" message;
    and if some indicator has confidence HIGH or is of type [banner_format],
    [system_message] or [date_reference], that message is not among the
    recommendations. *)
Theorem C9_recommendations st :
  reachable isoformat strftime_day md5_hexdigest json_dumps st →
  (indicators st = [] → _generate_recommendations st = [rec_none]) ∧
  (Exists (fun i => confidence i = HIGH ∨ indicator_type i = "banner_format" ∨
                    indicator_type i = "system_message" ∨
                    indicator_type i = "date_reference") (indicators st) →
   rec_none ∉ _generate_recommendations st).
Proof.
  intros Hr. apply reachable_ledger_inv in Hr as (Hc & _ & _).
  assert (∀ name, name ∈ registry_names →
            pattern_count st name = type_count name (indicators st)) as Hcount.
  { intros name Hn. by apply counted_lookup. }
  assert ("banner_format" ∈ registry_names) as Hb by compute_done.
  assert ("system_message" ∈ registry_names) as Hs by compute_done.
  assert ("date_reference" ∈ registry_names) as Hd by compute_done.
  destruct (recommendations_cases st) as [Hnone Hsome]. split.
  - intros Hnil. apply Hnone; rewrite ?Hcount by done;
      unfold high_conf, type_count; by rewrite Hnil.
  - intros He. apply Hsome. rewrite !Hcount by done.
    apply Exists_exists in He as (i & Hin & [Hi|[Hi|[Hi|Hi]]]).
    + left. apply high_conf_pos, Exists_exists. by exists i.
    + right; left. apply type_count_pos, Exists_exists. by exists i.
    + right; right; left. apply type_count_pos, Exists_exists. by exists i.
    + right; right; right. apply type_count_pos, Exists_exists. by exists i.
Qed.

(** C10. In every reachable state the values of [pattern_frequency] sum to
    the number of indicators whose type is a registry rule; the table has no
    entry for [unexpected_message_count]; and [unique_patterns] is the number
    of types of [indicators_by_type] other than [unexpected_message_count]. *)
Theorem C10_synthetic_not_counted st ts :
  reachable isoformat strftime_day md5_hexdigest json_dumps st →
  let r := report_of ts st in
  sum_values (pattern_frequency r) =
    length (filter (fun i => indicator_type i ∈ registry_names) (indicators st)) ∧
  pattern_frequency r !! "unexpected_message_count" = None ∧
  unique_patterns (report_summary r) =
    size (dom (indicators_by_type r) ∖ {[ "unexpected_message_count" ]}).
Proof.
  intros Hr. apply reachable_ledger_inv in Hr as (Hc & Ht & Hs). simpl.
  split; [exact Hs|]. split.
  - rewrite Hc. rewrite bool_decide_eq_false_2; [done|apply synthetic_not_rule].
  - rewrite <- size_dom. f_equal. apply set_eq. intros k.
    rewrite elem_of_difference, !elem_of_dom, Hc.
    unfold _group_indicators_by_type. rewrite group_by_lookup.
    unfold group_of, type_count. rewrite elem_of_singleton.
    destruct (filter (fun i => indicator_type i = k) (indicators st)) as [|i g] eqn:Hf.
    + simpl. destruct (bool_decide _); (split; [intros H|intros [H _]]);
        by apply is_Some_None in H.
    + assert (i ∈ filter (fun i => indicator_type i = k) (indicators st)) as Hi
        by (rewrite Hf; left).
      apply list_elem_of_filter in Hi as [Hk Hin].
      rewrite Forall_forall in Ht. specialize (Ht i Hin). rewrite Hk in Ht.
      simpl. destruct (bool_decide_reflect (k ∈ registry_names)) as [Hn|Hn].
      * split; [|by eexists]. intros _. split; [by eexists|].
        intros ->. by apply synthetic_not_rule.
      * split; [intros H; by apply is_Some_None in H|].
        intros [_ Hne]. destruct Ht as [?|Hsy]; [done|].
        destruct Hne. unfold synthetic in Hsy. congruence.
Qed.

End Recommendations.

(** ** Requests that follow the type annotations *)

Lemma check_content_typed cid v loc ts st :
  is_str v = true →
  _check_content_for_patterns cid v loc ts st =
    (Ok tt, foldl record st (content_indicators cid ts loc v)).
Proof. destruct v; try discriminate. intros _. apply check_content_run. Qed.

Lemma system_scan_run c st :
  opt_str (Some (system_prompt c)) = true →
  when (truthy (system_prompt c))
    (_check_content_for_patterns (call_id c) (system_prompt c) "system_prompt"
       (timestamp c)) st
  = (Ok tt, foldl record st (system_indicators c)).
Proof.
  unfold system_indicators. intros Ht.
  destruct (system_prompt c) as [| | |s| |] eqn:Hs; try discriminate; [reflexivity|].
  destruct (truthy (PStr s)); [|reflexivity].
  rewrite when_true. by apply check_content_typed.
Qed.

Lemma messages_loop_run c ms i st :
  forallb is_dict ms = true →
  for_each (fun i message =>
      content ← lift (py_get message "content" (PStr "")) ;
      when (is_str content)
        (_check_content_for_patterns (call_id c) content
           ("message_" +:+ pretty i) (timestamp c)))
    i ms st
  = (Ok tt, foldl record st (message_indicators c i ms)).
Proof.
  revert i st. induction ms as [|m ms IH]; intros i st Hd; [reflexivity|].
  simpl in Hd. apply andb_prop in Hd as [Hm Hms].
  destruct m as [| | | | |d]; try discriminate.
  rewrite for_each_cons. simpl message_indicators. rewrite foldl_app.
  rewrite bind_run. rewrite bind_run. simpl py_get. rewrite lift_run. cbv beta iota.
  destruct (is_str (default (PStr "") (d !! "content"))) eqn:Hstr.
  - rewrite when_true, check_content_typed by done. cbv beta iota. by apply IH.
  - rewrite when_false. cbv beta iota. rewrite IH by done.
    simpl message_content. by destruct (default (PStr "") (d !! "content")).
Qed.

Lemma count_user_typed ms :
  forallb is_dict ms = true →
  count_user ms = Ok (length (filter (fun m => has_role_user m = true) ms)).
Proof.
  unfold count_user. intros Hd.
  assert (map_result (fun m => py_get m "role" PNone) ms =
            Ok (map (fun m => match m with
                              | PDict d => default PNone (d !! "role")
                              | _ => PNone
                              end) ms)) as ->.
  { induction ms as [|m ms IH]; [reflexivity|].
    simpl in Hd. apply andb_prop in Hd as [Hm Hms].
    destruct m; try discriminate. simpl. by rewrite IH. }
  f_equal. induction ms as [|m ms IH]; [reflexivity|].
  simpl in Hd. apply andb_prop in Hd as [Hm Hms].
  destruct m as [| | | | |d]; try discriminate.
  assert (py_eq_str (default PNone (d !! "role")) "user" = has_role_user (PDict d))
    as Heq by (simpl; by destruct (d !! "role") as [[]|]).
  simpl map. rewrite !filter_cons, Heq.
  destruct (decide _); simpl; by rewrite (IH Hms).
Qed.

Lemma tools_typed ts :
  forallb is_dict ts = true →
  map_result (fun tool => py_get tool "name" (PStr "unknown")) ts =
    Ok (map tool_name ts).
Proof.
  induction ts as [|t ts IH]; [reflexivity|]. simpl. intros Hd.
  apply andb_prop in Hd as [Ht Hts]. destruct t; try discriminate.
  simpl. by rewrite IH.
Qed.

Lemma append_indicator_run i st :
  append_indicator i st =
    (Ok tt, mkInterceptor (calls st) (indicators st ++ [i]) (call_patterns st)
                          (clock st) (log_lines st) (journal st ++ [JIndicator i])).
Proof. reflexivity. Qed.

Lemma analyze_request_run c ms st :
  messages c = PList ms → forallb is_dict ms = true →
  opt_str (Some (system_prompt c)) = true →
  let out := _analyze_request_for_announcements c st in
  fst out = Ok tt ∧ calls (snd out) = calls st ∧
  indicators (snd out) =
    indicators st ++ system_indicators c ++ message_indicators c 0 ms
    ++ synthetic_indicators c (length (filter (fun m => has_role_user m = true) ms)).
Proof.
  intros Hm Hd Hs. cbv zeta. unfold _analyze_request_for_announcements.
  rewrite bind_run, system_scan_run by done. cbv beta iota.
  rewrite Hm. simpl py_iter. rewrite bind_run, lift_run. cbv beta iota.
  rewrite bind_run, messages_loop_run by done. cbv beta iota.
  rewrite bind_run, lift_run. cbv beta iota.
  rewrite bind_run, count_user_typed, lift_run by done. cbv beta iota.
  rewrite <- foldl_app. unfold synthetic_indicators.
  destruct (bool_decide (1 < _)%nat).
  - rewrite when_true, append_indicator_run. cbn [fst snd calls indicators].
    rewrite record_all_calls, record_all_indicators.
    by rewrite <- !app_assoc.
  - rewrite when_false. cbn [fst snd].
    rewrite record_all_calls, record_all_indicators.
    by rewrite app_nil_r.
Qed.

Lemma content_indicators_props cid ts loc v :
  Forall (fun i => indicator_type i ∈ registry_names ∧ location i = loc)
         (content_indicators cid ts loc v).
Proof.
  destruct v; try constructor.
  eapply Forall_impl; [apply scanned_indicators|]. simpl. tauto.
Qed.




(** ** Requests of any shape *)










Section Requests.

Variable isoformat : nat -> string.
Variable strftime_day : nat -> string.
Variable md5_hexdigest : string -> string.
Variable json_dumps : pyval -> string.

Lemma intercept_request_unfold st ep params :
  intercept_request isoformat strftime_day md5_hexdigest json_dumps ep params st =
    let early := mkInterceptor (calls st) (indicators st) (call_patterns st)
                   (2 + clock st) (log_lines st) (journal st) in
    match py_iter (default (PList []) (params !! "tools")) with
    | Raise e => (Raise e, early)
    | Ok ts =>
        match map_result (fun tool => py_get tool "name" (PStr "unknown")) ts with
        | Raise e => (Raise e, early)
        | Ok tools =>
            let c := mkAPICall (isoformat (clock st))
                       (str_take 8 (md5_hexdigest (isoformat (S (clock st)) +:+
                                                   json_dumps (PDict params))))
                       "request" ep
                       (default (PStr "unknown") (params !! "model"))
                       (default (PList []) (params !! "messages"))
                       (default (PStr "") (params !! "system")) tools params in
            match _analyze_request_for_announcements c
                    (analysis_state strftime_day st 3 c) with
            | (Ok _, st') => (Ok (call_id c), st')
            | (Raise e, st') => (Raise e, st')
            end
        end
    end.
Proof.
  unfold intercept_request, generate_call_id, _log_call, analysis_state.
  rewrite !bind_run, tick_run. cbv beta iota.
  rewrite !bind_run, tick_run. cbv beta iota. rewrite mret_run. cbv beta iota.
  rewrite bind_run, lift_run. cbv beta iota zeta.
  destruct (py_iter _) as [ts|e]; [|reflexivity].
  rewrite bind_run, lift_run. cbv beta iota.
  destruct (map_result _ ts) as [tools|e]; reflexivity.
Qed.

(** What [intercept_request] does on a payload that follows the type
    annotations: it returns the identifier of the call it appended, and the
    analysis appends the indicators of the system prompt, of the messages and
    of the count of user messages, in this order. *)
Lemma intercept_request_run endpoint params st :
  well_typed_request params = true →
  let c := request_call isoformat md5_hexdigest json_dumps endpoint params st in
  let out := intercept_request isoformat strftime_day md5_hexdigest json_dumps
               endpoint params st in
  fst out = Ok (call_id c) ∧
  calls (snd out) = calls st ++ [c] ∧
  indicators (snd out) =
    indicators st ++ system_indicators c
    ++ message_indicators c 0 (request_messages params)
    ++ synthetic_indicators c (user_messages params).
Proof.
  unfold well_typed_request. intros Hw.
  apply andb_prop in Hw as [Hw Hsys]. apply andb_prop in Hw as [Htools Hmsgs].
  cbv zeta. unfold intercept_request, generate_call_id, _log_call.
  assert (py_iter (default (PList []) (params !! "tools")) = Ok (request_tools params)
          ∧ forallb is_dict (request_tools params) = true) as [Hit Hdt].
  { unfold request_tools.
    destruct (params !! "tools") as [[]|]; try discriminate; by split. }
  assert (default (PList []) (params !! "messages") = PList (request_messages params)
          ∧ forallb is_dict (request_messages params) = true) as [Hms Hdm].
  { unfold request_messages.
    destruct (params !! "messages") as [[]|]; try discriminate; by split. }
  rewrite Hit. rewrite !bind_run, tick_run. cbv beta iota.
  rewrite !bind_run, tick_run. cbv beta iota. rewrite mret_run. cbv beta iota.
  rewrite !bind_run, lift_run. cbv beta iota.
  rewrite !bind_run, tools_typed, lift_run by done. cbv beta iota.
  rewrite !bind_run, append_call_run. cbv beta iota.
  rewrite !bind_run, tick_run. cbv beta iota.
  rewrite write_log_run. cbv beta iota.
  cbn [calls indicators call_patterns clock log_lines journal].
  fold (request_call isoformat md5_hexdigest json_dumps endpoint params st).
  set (c := request_call isoformat md5_hexdigest json_dumps endpoint params st).
  rewrite bind_run.
  match goal with
  | |- context [_analyze_request_for_announcements c ?s] =>
      pose proof (analyze_request_run c (request_messages params) s Hms Hdm) as Ha
  end.
  destruct Ha as (Hr & Hc & Hi).
  { subst c. cbn [system_prompt request_call]. by destruct (params !! "system") as [[]|]. }
  destruct (_analyze_request_for_announcements _ _) as [r st'].
  cbn [fst snd] in *. subst r. rewrite ret_run. cbn [fst snd].
  split; [reflexivity|]. split; [exact Hc|]. exact Hi.
Qed.




End Requests.

(** ** The properties on the sample payloads *)





Lemma C7_indicator_references_call_witness :
  length (indicators scenario_b_state) = 3 ∧
  journal_ok (journal scenario_b_state) ∧
  calls scenario_b_state = journal_calls (journal scenario_b_state) ∧
  indicators scenario_b_state = journal_indicators (journal scenario_b_state).
Proof.
  split; [vm_compute; reflexivity|].
  apply (C7_indicator_references_call env_iso env_day env_md5 env_json
           scenario_b_state).
  apply reach_response, reach_request, reach_init.
Defined.

Lemma C9_recommendations_witness :
  indicators scenario_c_state = [] ∧
  _generate_recommendations scenario_c_state = [rec_none] ∧
  rec_none ∉ _generate_recommendations scenario_b_state.
Proof.
  split; [vm_compute; reflexivity|]. split.
  - apply (C9_recommendations env_iso env_day env_md5 env_json scenario_c_state).
    + apply reach_response, reach_request, reach_init.
    + vm_compute; reflexivity.
  - apply (C9_recommendations env_iso env_day env_md5 env_json scenario_b_state).
    + apply reach_response, reach_request, reach_init.
    + apply Exists_exists.
      exists (mkIndicator "2025-10-16T10:00:03" "9e107d9d" "system_message"
                "['[SYSTEM]']" HIGH "response_block_0" "system_message").
      split; [vm_compute; right; left|left; reflexivity].
Defined.

Lemma C10_synthetic_not_counted_witness :
  is_Some (indicators_by_type (report_of "2025-10-16T10:00:09" scenario_b_state)
             !! "unexpected_message_count") ∧
  let r := report_of "2025-10-16T10:00:09" scenario_b_state in
  sum_values (pattern_frequency r) =
    length (filter (fun i => indicator_type i ∈ registry_names)
                   (indicators scenario_b_state)) ∧
  pattern_frequency r !! "unexpected_message_count" = None ∧
  unique_patterns (report_summary r) =
    size (dom (indicators_by_type r) ∖ {[ "unexpected_message_count" ]}).
Proof.
  split; [vm_compute; eexists; reflexivity|].
  apply (C10_synthetic_not_counted env_iso env_day env_md5 env_json
           scenario_b_state "2025-10-16T10:00:09").
  apply reach_response, reach_request, reach_init.
Defined.

(** Scenario A: the three rules of the system prompt are recorded with
    confidence HIGH. *)
Example scenario_a_indicators :
  map (fun i => (indicator_type i, confidence i, location i))
      (indicators (snd (intercept_request env_iso env_day env_md5 env_json
                          "beta.messages.create" scenario_a_request init)))
  = [ ("banner_format", HIGH, "system_prompt");
      ("announcement_keyword", HIGH, "system_prompt");
      ("date_reference", HIGH, "system_prompt") ].
Proof. vm_compute. reflexivity. Qed.

(** Outside the annotations: a system prompt that is a list of blocks makes
    [findall] raise [TypeError] once the call is appended, before any
    message is looked at. *)
Example block_system_raises :
  let out := intercept_request env_iso env_day env_md5 env_json
               "beta.messages.create" block_system_request init in
  fst out = Raise TypeError ∧
  length (calls (snd out)) = 1 ∧
  indicators (snd out) = [].
Proof. vm_compute. repeat split. Qed.

(** * Further properties of the interceptor *)

(** ** The scan and the scorer's count *)

Lemma scan_length_registry (l : list (string * pattern)) s :
  length (filter (fun rm : string * list fragment => snd rm ≠ [])
            (map (fun np => (fst np, findall (snd np) s)) l))
  = length (filter (fun np : string * pattern => search (snd np) s = true) l).
Proof.
  induction l as [|np l IH]; [done|].
  simpl map. rewrite !filter_cons. simpl snd.
  pose proof (findall_search (snd np) s) as Hfs.
  destruct (decide (findall (snd np) s ≠ [])) as [Hf|Hf],
           (decide (search (snd np) s = true)) as [Hs|Hs]; simpl; try lia.
  - by apply Hfs in Hf.
  - by apply Hfs in Hs.
Qed.

Lemma matching_patterns_scan s : matching_patterns s = length (scan s).
Proof. unfold matching_patterns, scan. by rewrite scan_length_registry. Qed.

(** X1. The number of rules the scorer finds matching when it searches the
    content again is the number of pairs the scan of that content yields. *)
Theorem scan_counts_matching s : matching_patterns s = length (scan s).
Proof. apply matching_patterns_scan. Qed.

(** X2. The confidence of each indicator a scan records is decided by the
    number of indicators that scan records: HIGH for [banner_format] and
    [system_message]; for the other rules LOW when it is the only one,
    MEDIUM when there are two, HIGH when there are three or more. *)
Theorem recorded_confidence_by_count st cid s loc ts :
  ∃ new,
    indicators (snd (_check_content_for_patterns cid (PStr s) loc ts st))
      = indicators st ++ new ∧
    Forall (fun i =>
        confidence i =
          if bool_decide (indicator_type i = "banner_format" ∨
                          indicator_type i = "system_message") then HIGH
          else match length new with
               | 0 | 1 => LOW
               | 2 => MEDIUM
               | _ => HIGH
               end) new.
Proof.
  rewrite check_content_run. cbn [snd].
  exists (map (indicator_for cid s loc ts) (scan s)).
  split; [apply record_all_indicators|].
  rewrite length_map, <- matching_patterns_scan, <- size_matching_rules.
  apply Forall_fmap, Forall_forall. intros rm _. simpl.
  apply confidence_by_count.
Qed.

(** ** Bounds on the matches *)

Lemma findall_from_bound p :
  (1 ≤ min_len (body p))%nat →
  ∀ s k pv, (length (findall_from p k pv s) ≤ String.length s - k)%nat.
Proof.
  intros Hp. induction s as [|c s IH]; intros k pv.
  - destruct k; simpl; [|lia].
    destruct (match_here p pv "") as [m|] eqn:Hm; simpl; [|lia].
    pose proof (match_here_length _ _ _ _ Hm) as Hl.
    unfold match_here in Hm. destruct (run _ _ _ _) as [st'|]; [|done].
    injection Hm as <-. unfold consumed in Hl. simpl in Hl. lia.
  - destruct k as [|k]; simpl.
    + destruct (match_here p pv (String c s)) as [m|] eqn:Hm; simpl.
      * pose proof (match_here_length _ _ _ _ Hm) as Hl.
        specialize (IH (pred (String.length (fst m))) (Some c)). lia.
      * specialize (IH 0 (Some c)). lia.
    + specialize (IH k (Some c)). lia.
Qed.

(** X4. A rule of the registry has at most as many matches in a content as
    the content has characters; in particular none in the empty content. *)
Theorem findall_bounded name p s :
  (name, p) ∈ announcement_patterns →
  (length (findall p s) ≤ String.length s)%nat.
Proof.
  intros Hin.
  assert (Forall (fun np => (1 ≤ min_len (body (snd np)))%nat) announcement_patterns)
    as Hall by (repeat constructor; vm_compute; lia).
  rewrite Forall_forall in Hall. specialize (Hall _ Hin). simpl in Hall.
  pose proof (findall_from_bound p Hall s 0 None). unfold findall. lia.
Qed.

Lemma findall_bounded_witness :
  ("urgent_marker", urgent_marker_re) ∈ announcement_patterns ∧
  (length (findall urgent_marker_re "urgent, URGENT") ≤ 14)%nat.
Proof.
  split; [do 4 right; left|].
  apply (findall_bounded "urgent_marker" urgent_marker_re "urgent, URGENT").
  do 4 right; left.
Defined.

Lemma scan_empty : scan "" = [].
Proof. vm_compute. reflexivity. Qed.

(** X5. Scanning an empty text records nothing and changes nothing. *)
Theorem check_empty_content st cid loc ts :
  _check_content_for_patterns cid (PStr "") loc ts st = (Ok tt, st).
Proof. rewrite check_content_run, scan_empty. reflexivity. Qed.

(** ** Operations, step by step *)

Lemma hoare_bind_ok {A B} (P R Q : interceptor → Prop) (m : M A) (f : A → M B) :
  (∀ st, ∃ a, fst (m st) = Ok a) →
  hoare P m R → (∀ a, hoare R (f a) Q) → hoare P (m ≫= f) Q.
Proof.
  intros Hok Hm Hf st HP. rewrite bind_run.
  specialize (Hm st HP). destruct (Hok st) as [a Ha].
  destruct (m st) as [[a'|e] st']; simpl in *; [|discriminate].
  by apply Hf.
Qed.

Lemma scanned_forms cid s loc ts :
  Forall (fun i => ind_call_id i = cid ∧ ind_timestamp i = ts ∧ location i = loc ∧
                   scanned_form i)
         (map (indicator_for cid s loc ts) (scan s)).
Proof.
  apply Forall_fmap, Forall_forall. intros rm Hrm. simpl.
  repeat split. by exists cid, s, loc, ts, rm.
Qed.

Section Steps.

(** [P] holds before an operation and [Q] after it; [I1 c] holds once the
    call [c] is appended and [I2 c] once it is logged, while it is
    analyzed. *)
Variables P Q : interceptor → Prop.
Variables I1 I2 : APICall → interceptor → Prop.

Hypothesis S_tick : hoare P tick P.
Hypothesis S_raise : ∀ st, P st → Q st.
Hypothesis S_call : ∀ c, hoare P (append_call c) (I1 c).
Hypothesis S_tick1 : ∀ c, hoare (I1 c) tick (I1 c).
Hypothesis S_log : ∀ c file, hoare (I1 c) (write_log file c) (I2 c).
Hypothesis S_record : ∀ c st i,
  ind_call_id i = call_id c → ind_timestamp i = timestamp c → scanned_form i →
  I2 c st → I2 c (record st i).
Hypothesis S_synthetic : ∀ c i,
  ind_call_id i = call_id c → ind_timestamp i = timestamp c → synthetic_form i →
  hoare (I2 c) (append_indicator i) (I2 c).
Hypothesis S_done : ∀ c st, I2 c st → Q st.

Lemma steps_record_all c st l :
  Forall (fun i => ind_call_id i = call_id c ∧ ind_timestamp i = timestamp c ∧
                   scanned_form i) l →
  I2 c st → I2 c (foldl record st l).
Proof.
  intros Hl. revert st. induction Hl as [|i l (Hc & Ht & Hf) _ IH]; intros st HI; [done|].
  simpl. apply IH. by apply S_record.
Qed.

Lemma steps_check_content c v loc :
  hoare (I2 c) (_check_content_for_patterns (call_id c) v loc (timestamp c)) (I2 c).
Proof.
  destruct v; try by apply hoare_pure.
  intros st HI. rewrite check_content_run. simpl.
  apply steps_record_all; [|done].
  eapply Forall_impl; [apply scanned_forms|]. simpl. tauto.
Qed.

Lemma steps_analyze_request c :
  hoare (I2 c) (_analyze_request_for_announcements c) (I2 c).
Proof.
  unfold _analyze_request_for_announcements.
  apply hoare_seq; [apply hoare_when, steps_check_content|intros _].
  apply hoare_seq; [apply hoare_lift|intros ms].
  apply hoare_seq.
  { apply hoare_for_each. intros i m.
    apply hoare_seq; [apply hoare_lift|intros v].
    apply hoare_when, steps_check_content. }
  intros _.
  apply hoare_seq; [apply hoare_lift|intros ms'].
  apply hoare_seq; [apply hoare_lift|intros n].
  destruct (bool_decide_reflect (1 < n)%nat) as [Hn|Hn]; [|by apply hoare_pure].
  rewrite when_true. apply S_synthetic; [done|done|]. by eexists _, _, n.
Qed.

Lemma steps_analyze_response c :
  hoare (I2 c) (_analyze_response_for_announcements c) (I2 c).
Proof.
  unfold _analyze_response_for_announcements.
  apply hoare_seq; [apply hoare_lift|intros ms].
  apply hoare_for_each. intros i b.
  destruct (is_dict b).
  - apply hoare_seq; [apply hoare_lift|intros v].
    apply hoare_when, steps_check_content.
  - apply hoare_when, steps_check_content.
Qed.

Variable isoformat : nat -> string.
Variable strftime_day : nat -> string.
Variable md5_hexdigest : string -> string.
Variable json_dumps : pyval -> string.

Lemma steps_log_call c : hoare (I1 c) (_log_call strftime_day c) (I2 c).
Proof.
  unfold _log_call.
  apply (hoare_bind_ok _ (I1 c)); [by eexists|apply S_tick1|intros n; apply S_log].
Qed.

Lemma steps_after_call (c : APICall) (analysis : M unit) {A} (k : M A) :
  hoare (I2 c) analysis (I2 c) →
  (∀ st, snd (k st) = st) →
  hoare P (append_call c ;; _log_call strftime_day c ;; analysis ;; k) Q.
Proof.
  intros Ha Hk.
  apply (hoare_bind_ok _ (I1 c)); [by eexists|apply S_call|intros _].
  apply (hoare_bind_ok _ (I2 c)); [by eexists|apply steps_log_call|intros _].
  apply (hoare_bind _ (I2 c)); [exact Ha|apply S_done|intros _].
  intros st HI. rewrite Hk. by apply (S_done c).
Qed.

Lemma steps_request endpoint params :
  hoare P (intercept_request isoformat strftime_day md5_hexdigest json_dumps
             endpoint params) Q.
Proof.
  unfold intercept_request, generate_call_id.
  apply (hoare_bind _ P); [apply S_tick|apply S_raise|intros n].
  apply (hoare_bind _ P); [|apply S_raise|intros cid].
  { apply hoare_seq; [apply S_tick|intros n']. apply hoare_ret. }
  apply (hoare_bind _ P); [apply hoare_lift|apply S_raise|intros ts].
  apply (hoare_bind _ P); [apply hoare_lift|apply S_raise|intros tools].
  apply steps_after_call; [apply steps_analyze_request|done].
Qed.

Lemma steps_response cid response :
  hoare P (intercept_response isoformat strftime_day cid response) Q.
Proof.
  unfold intercept_response.
  apply (hoare_bind _ P); [apply S_tick|apply S_raise|intros n].
  set (c := mkAPICall _ _ _ _ _ _ _ _ _).
  apply (hoare_bind_ok _ (I1 c)); [by eexists|apply S_call|intros _].
  apply (hoare_bind_ok _ (I2 c)); [by eexists|apply steps_log_call|intros _].
  intros st HI. apply (S_done c). by apply steps_analyze_response.
Qed.

Lemma steps_report : hoare P (generate_report isoformat) Q.
Proof.
  unfold generate_report.
  apply (hoare_bind _ P); [apply S_tick|apply S_raise|intros n].
  apply (hoare_bind _ P); [by apply hoare_pure|apply S_raise|intros st].
  intros st' HP. by apply S_raise.
Qed.

End Steps.

(** A property kept by the three operations holds of every reachable
    state. *)
Lemma reachable_steps (P : interceptor → Prop) (I1 I2 : APICall → interceptor → Prop)
    isoformat strftime_day md5_hexdigest json_dumps :
  P init →
  hoare P tick P →
  (∀ c, hoare P (append_call c) (I1 c)) →
  (∀ c, hoare (I1 c) tick (I1 c)) →
  (∀ c file, hoare (I1 c) (write_log file c) (I2 c)) →
  (∀ c st i, ind_call_id i = call_id c → ind_timestamp i = timestamp c →
     scanned_form i → I2 c st → I2 c (record st i)) →
  (∀ c i, ind_call_id i = call_id c → ind_timestamp i = timestamp c →
     synthetic_form i → hoare (I2 c) (append_indicator i) (I2 c)) →
  (∀ c st, I2 c st → P st) →
  ∀ st, reachable isoformat strftime_day md5_hexdigest json_dumps st → P st.
Proof.
  intros Hinit H1 H2 H3 H4 H5 H6 H7 st Hr. induction Hr.
  - exact Hinit.
  - by apply (steps_request P P I1 I2).
  - by apply (steps_response P P I1 I2).
  - by apply (steps_report P P).
Qed.

(** ** Every recorded indicator is well formed *)

Lemma scanned_form_wf i : scanned_form i → indicator_wf i.
Proof.
  intros (cid & s & loc & ts & rm & Hrm & ->). left.
  unfold indicator_for. cbn [indicator_type pattern_matched confidence content].
  pose proof (scan_names s) as Hn. rewrite Forall_forall in Hn.
  specialize (Hn rm Hrm).
  split; [exact Hn|]. split; [done|].
  rewrite confidence_by_count.
  split; [|split].
  - destruct (bool_decide _); [left|].
    destruct (size _) as [|[|[|?]]]; [do 2 right; left|do 2 right; left|right; left|left].
  - intros Hp. by rewrite bool_decide_eq_true_2.
  - apply str_take_length.
Qed.

Lemma synthetic_form_wf i : synthetic_form i → indicator_wf i.
Proof. intros (ts & cid & n & Hn & ->). right. by simpl. Qed.

Section WellFormed.

Variable isoformat : nat -> string.
Variable strftime_day : nat -> string.
Variable md5_hexdigest : string -> string.
Variable json_dumps : pyval -> string.

(** X11. In every reachable state each indicator is either the indicator of
    a registry rule, with [pattern_matched] equal to its type, a confidence
    among HIGH, MEDIUM and LOW that is HIGH for [banner_format] and
    [system_message], and at most 200 characters of content; or the
    indicator of the message count, with confidence MEDIUM and location
    [message_list]. *)
Theorem reachable_indicators_wf st :
  reachable isoformat strftime_day md5_hexdigest json_dumps st →
  Forall indicator_wf (indicators st).
Proof.
  apply (reachable_steps (fun st => Forall indicator_wf (indicators st))
           (fun _ st => Forall indicator_wf (indicators st))
           (fun _ st => Forall indicator_wf (indicators st))).
  - constructor.
  - by intros st0 H.
  - by intros c st0 H.
  - by intros c st0 H.
  - by intros c file st0 H.
  - intros c st0 i _ _ Hf H. simpl. apply Forall_app. split; [done|].
    constructor; [by apply scanned_form_wf|constructor].
  - intros c i _ _ Hf st0 H. simpl. apply Forall_app. split; [done|].
    constructor; [by apply synthetic_form_wf|constructor].
  - by intros c st0 H.
Qed.

End WellFormed.

(** ** Operations only append *)

Lemma pattern_count_record st i name :
  (pattern_count st name ≤ pattern_count (record st i) name)%nat.
Proof.
  unfold pattern_count. simpl.
  destruct (decide (indicator_type i = name)) as [<-|Hne].
  - rewrite lookup_insert_eq. simpl. lia.
  - by rewrite lookup_insert_ne.
Qed.

Lemma analysis_of_append form st0 c st i cp :
  ind_call_id i = call_id c → ind_timestamp i = timestamp c → form i →
  (∀ name, (pattern_count st name ≤ default 0 (cp !! name))%nat) →
  analysis_of form st0 c st →
  analysis_of form st0 c
    (mkInterceptor (calls st) (indicators st ++ [i]) cp (clock st) (log_lines st)
                   (journal st ++ [JIndicator i])).
Proof.
  intros Hc Ht Hf Hcp (ins & (Hcalls & Hinds & Hcount) & Hall).
  exists (ins ++ [i]). split; [split; [|split]|].
  - exact Hcalls.
  - simpl. by rewrite Hinds, app_assoc.
  - intros name. etrans; [apply Hcount|apply Hcp].
  - apply Forall_app. split; [done|]. constructor; [|constructor]. auto.
Qed.

Lemma analysis_of_request st0 c :
  hoare (analysis_of (fun i => scanned_form i ∨ synthetic_form i) st0 c)
        (_analyze_request_for_announcements c)
        (analysis_of (fun i => scanned_form i ∨ synthetic_form i) st0 c).
Proof.
  apply (steps_analyze_request
           (analysis_of (fun i => scanned_form i ∨ synthetic_form i) st0)).
  - intros c' st i Hc Ht Hf. apply analysis_of_append; auto.
    apply pattern_count_record.
  - intros c' i Hc Ht Hf st. by apply analysis_of_append; auto.
Qed.

Lemma analysis_of_response st0 c :
  hoare (analysis_of scanned_form st0 c) (_analyze_response_for_announcements c)
        (analysis_of scanned_form st0 c).
Proof.
  apply (steps_analyze_response (analysis_of scanned_form st0)).
  intros c' st i Hc Ht Hf. apply analysis_of_append; auto.
  apply pattern_count_record.
Qed.

Lemma extends_with_clock st cs ins st' n :
  extends_with cs ins st
    (mkInterceptor (calls st') (indicators st') (call_patterns st') n
                   (log_lines st') (journal st')) ↔
  extends_with cs ins st st'.
Proof. done. Qed.

Lemma extends_with_refl st : extends_with [] [] st st.
Proof. unfold extends_with. by rewrite !app_nil_r. Qed.

Section Unfoldings.

Variable isoformat : nat -> string.
Variable strftime_day : nat -> string.
Variable md5_hexdigest : string -> string.
Variable json_dumps : pyval -> string.

Lemma intercept_response_unfold st cid response :
  intercept_response isoformat strftime_day cid response st =
    _analyze_response_for_announcements (response_call isoformat cid response st)
      (analysis_state strftime_day st 2 (response_call isoformat cid response st)).
Proof.
  unfold intercept_response, response_call, analysis_state.
  assert ((if is_list (default (PList []) (response !! "content"))
           then default (PList []) (response !! "content")
           else PList [default (PList []) (response !! "content")])
          = PList (response_blocks response)) as ->.
  { unfold response_blocks. by destruct (response !! "content") as [[]|]. }
  reflexivity.
Qed.

End Unfoldings.

Section Appends.

Variable isoformat : nat -> string.
Variable strftime_day : nat -> string.
Variable md5_hexdigest : string -> string.
Variable json_dumps : pyval -> string.

(** X6. Whatever the payload, and whether it returns or raises,
    [intercept_request] only appends: the earlier calls and indicators stay
    in place, at most one call is added, no count of the frequency table goes
    down, and every indicator added carries the identifier and the timestamp
    of the call added.  When it returns, the identifier returned is that of
    the call added, which is a request for the given endpoint with the
    payload as metadata. *)
Theorem request_only_appends st ep params :
  let out := intercept_request isoformat strftime_day md5_hexdigest json_dumps
               ep params st in
  ∃ cs ins,
    extends_with cs ins st (snd out) ∧
    (length cs ≤ 1)%nat ∧
    Forall (fun i => ∃ c, cs = [c] ∧ ind_call_id i = call_id c ∧
                          ind_timestamp i = timestamp c) ins ∧
    ∀ cid, fst out = Ok cid →
      ∃ c, cs = [c] ∧ call_id c = cid ∧ type c = "request" ∧
           endpoint c = ep ∧ metadata c = params.
Proof.
  cbv zeta. rewrite intercept_request_unfold. cbv zeta.
  destruct (py_iter _) as [ts|e].
  2:{ exists [], []. cbn [fst snd].
      split; [unfold extends_with, pattern_count; simpl; by rewrite !app_nil_r|].
      split; [simpl; lia|]. split; [constructor|discriminate]. }
  destruct (map_result _ ts) as [tools|e].
  2:{ exists [], []. cbn [fst snd].
      split; [unfold extends_with, pattern_count; simpl; by rewrite !app_nil_r|].
      split; [simpl; lia|]. split; [constructor|discriminate]. }
  set (call := mkAPICall _ _ _ _ _ _ _ _ _).
  assert (analysis_of (fun i => scanned_form i ∨ synthetic_form i) st call
            (snd (_analyze_request_for_announcements call
                    (analysis_state strftime_day st 3 call)))) as Ha.
  { apply analysis_of_request. exists []. split; [|constructor].
    unfold extends_with, pattern_count, analysis_state.
    cbn [calls indicators call_patterns]. by rewrite app_nil_r. }
  destruct Ha as (ins & Hext & Hall).
  destruct (_analyze_request_for_announcements call _) as [[u|e] st'];
    cbn [fst snd] in *.
  - exists [call], ins.
    split; [exact Hext|]. split; [simpl; lia|]. split.
    + eapply Forall_impl; [exact Hall|]. simpl. intros i (? & ? & _). by exists call.
    + intros cid [= <-]. by exists call.
  - exists [call], ins.
    split; [exact Hext|]. split; [simpl; lia|]. split.
    + eapply Forall_impl; [exact Hall|]. simpl. intros i (? & ? & _). by exists call.
    + discriminate.
Qed.

(** X7. Whatever the response, and even when its analysis raises,
    [intercept_response] appends exactly one call: a response with the given
    identifier, the endpoint [beta.messages.create], no system prompt, no
    tools, the response as metadata, and as messages the list under
    [content], a value that is not a list being wrapped into a list of
    one.  The indicators added carry the given identifier and the timestamp
    of that call, and come from scans. *)
Theorem response_appends_call st cid response :
  let out := intercept_response isoformat strftime_day cid response st in
  let c := response_call isoformat cid response st in
  ∃ ins,
    extends_with [c] ins st (snd out) ∧
    Forall (fun i => ind_call_id i = cid ∧ ind_timestamp i = timestamp c ∧
                     scanned_form i) ins.
Proof.
  cbv zeta. rewrite intercept_response_unfold.
  apply (analysis_of_response st (response_call isoformat cid response st)).
  exists []. split; [|constructor].
  unfold extends_with, pattern_count, analysis_state.
  cbn [calls indicators call_patterns]. by rewrite app_nil_r.
Qed.

End Appends.

(** ** Responses whose blocks can be handled *)

Lemma blocks_loop_run c bs i st :
  forallb typed_block bs = true →
  for_each (fun i content_block =>
      if is_dict content_block then
        text ← lift (py_get content_block "text" (PStr "")) ;
        when (truthy text)
          (_check_content_for_patterns (call_id c) text
             ("response_block_" +:+ pretty i) (timestamp c))
      else
        when (is_str content_block)
          (_check_content_for_patterns (call_id c) content_block
             ("response_content_" +:+ pretty i) (timestamp c)))
    i bs st
  = (Ok tt, foldl record st (response_indicators c i bs)).
Proof.
  revert i st. induction bs as [|b bs IH]; intros i st Hb; [reflexivity|].
  simpl in Hb. apply andb_prop in Hb as [Hb Hbs].
  rewrite for_each_cons, bind_run. simpl response_indicators. rewrite foldl_app.
  destruct b as [| | |s| |d]; cbn [is_dict is_str block_indicators];
    rewrite ?when_false, ?when_true; cbv beta iota; try by apply IH.
  - rewrite check_content_typed by done. cbv beta iota. by apply IH.
  - rewrite bind_run. simpl py_get. rewrite lift_run. cbv beta iota zeta.
    destruct (truthy (default (PStr "") (d !! "text"))) eqn:Ht.
    + rewrite when_true, check_content_typed; [cbv beta iota; by apply IH|].
      simpl in Hb. destruct (d !! "text") as [v|]; simpl in *; [|done].
      rewrite Ht in Hb. by rewrite orb_false_r in Hb.
    + rewrite when_false. cbv beta iota. by apply IH.
Qed.

Section Responses.

Variable isoformat : nat -> string.
Variable strftime_day : nat -> string.

Lemma intercept_response_run st cid response :
  forallb typed_block (response_blocks response) = true →
  let out := intercept_response isoformat strftime_day cid response st in
  let c := response_call isoformat cid response st in
  fst out = Ok tt ∧
  calls (snd out) = calls st ++ [c] ∧
  indicators (snd out) =
    indicators st ++ response_indicators c 0 (response_blocks response).
Proof.
  intros Hb. cbv zeta. rewrite intercept_response_unfold.
  unfold _analyze_response_for_announcements.
  cbn [messages response_call]. simpl py_iter. rewrite bind_run, lift_run.
  cbv beta iota. rewrite blocks_loop_run by done. cbn [fst snd].
  rewrite record_all_calls, record_all_indicators. done.
Qed.

(** X8. A response in which the text of every dict block is a string (or
    missing, or falsy) is analyzed without raising.  Its indicators are
    those of its blocks in order, each located by the position of its block
    in the list: [response_block_<i>] for the text of a dict block,
    [response_content_<i>] for a string block; a dict block without text or
    with an empty text, and a block that is neither a dict nor a string, add
    nothing. *)
Theorem response_typed_run st cid response :
  forallb typed_block (response_blocks response) = true →
  let out := intercept_response isoformat strftime_day cid response st in
  let c := response_call isoformat cid response st in
  fst out = Ok tt ∧
  calls (snd out) = calls st ++ [c] ∧
  indicators (snd out) =
    indicators st ++ response_indicators c 0 (response_blocks response).
Proof. apply intercept_response_run. Qed.

(** X9. A response whose [content] is a single string, not a list, is
    analyzed as a list of that one string: it returns, and the indicators
    added are those of the scan of the string, located at
    [response_content_0]. *)
Theorem response_bare_string st cid response s :
  response !! "content" = Some (PStr s) →
  let out := intercept_response isoformat strftime_day cid response st in
  fst out = Ok tt ∧
  messages <$> last (calls (snd out)) = Some (PList [PStr s]) ∧
  indicators (snd out) =
    indicators st ++
    map (indicator_for cid s "response_content_0" (isoformat (clock st))) (scan s).
Proof.
  intros Hc.
  assert (response_blocks response = [PStr s]) as Hbs
    by (unfold response_blocks; by rewrite Hc).
  destruct (intercept_response_run st cid response) as (Hr & Hcalls & Hinds).
  { by rewrite Hbs. }
  cbv zeta in *. split; [exact Hr|]. rewrite Hcalls, Hinds, Hbs, last_snoc.
  split; [simpl; by rewrite Hbs|].
  simpl. by rewrite pretty_0, app_nil_r.
Qed.

End Responses.

(** ** The report *)

Lemma group_of_some key k l g :
  group_of key k l = Some g → g = filter (fun i => key i = k) l ∧ g ≠ [].
Proof.
  unfold group_of. destruct (filter _ l) eqn:Hf; [done|]. by intros [= <-].
Qed.

Lemma group_of_default key k l :
  default [] (group_of key k l) = filter (fun i => key i = k) l.
Proof. unfold group_of. by destruct (filter _ l). Qed.

(** X15. In the report of any state no group is empty and every indicator of
    a group has the group's key; the summary's count of HIGH indicators is
    the size of the HIGH group of [indicators_by_confidence], and its count
    of calls is the number of calls. *)
Theorem report_groups st ts :
  let r := report_of ts st in
  (∀ k g, indicators_by_confidence r !! k = Some g →
     g ≠ [] ∧ Forall (fun i => confidence i = k ∧ i ∈ indicators st) g) ∧
  (∀ k g, indicators_by_type r !! k = Some g →
     g ≠ [] ∧ Forall (fun i => indicator_type i = k ∧ i ∈ indicators st) g) ∧
  high_confidence_indicators (report_summary r) =
    length (default [] (indicators_by_confidence r !! HIGH)) ∧
  total_calls (report_summary r) = length (calls st).
Proof.
  cbv zeta. simpl. unfold _group_indicators_by_confidence, _group_indicators_by_type.
  split; [|split; [|split]].
  - intros k g. rewrite group_by_lookup. intros [-> Hne]%group_of_some.
    split; [done|]. apply Forall_forall. intros i. by rewrite list_elem_of_filter.
  - intros k g. rewrite group_by_lookup. intros [-> Hne]%group_of_some.
    split; [done|]. apply Forall_forall. intros i. by rewrite list_elem_of_filter.
  - by rewrite group_by_lookup, group_of_default.
  - done.
Qed.

Section Frequency.

Variable isoformat : nat -> string.
Variable strftime_day : nat -> string.
Variable md5_hexdigest : string -> string.
Variable json_dumps : pyval -> string.

(** X14. In the report of a reachable state the frequency of a rule is the
    size of its group in [indicators_by_type]: a rule has an entry in one
    exactly when it has one in the other; and the table has no key outside
    the registry. *)
Theorem report_frequency_is_group_size st ts :
  reachable isoformat strftime_day md5_hexdigest json_dumps st →
  let r := report_of ts st in
  ∀ name,
    pattern_frequency r !! name =
      if bool_decide (name ∈ registry_names)
      then length <$> indicators_by_type r !! name
      else None.
Proof.
  intros Hr. apply reachable_ledger_inv in Hr as (Hc & _ & _).
  cbv zeta. simpl. intros name. rewrite Hc.
  unfold _group_indicators_by_type. rewrite group_by_lookup.
  unfold group_of, type_count.
  destruct (bool_decide _); [|done].
  by destruct (filter _ _).
Qed.

End Frequency.

(** X16. The timeline has one entry for each of the last ten calls, in
    order: all of them when there are at most ten. *)
Theorem timeline_last_ten st :
  let tl := _build_timeline st in
  let n := length (calls st) in
  length tl = Nat.min 10 n ∧
  ∀ j, (j < length tl)%nat →
    tl !! j =
      (fun c => mkTimelineEntry (timestamp c) (call_id c) (type c) (model c) (endpoint c))
        <$> calls st !! (n - length tl + j)%nat.
Proof.
  cbv zeta. unfold _build_timeline.
  rewrite length_map, length_drop.
  split; [lia|]. intros j Hj.
  rewrite list_lookup_fmap, lookup_drop. do 2 f_equal. lia.
Qed.

(** X17. The recommendations of any state are never empty and at most
    four, and the "no strong indicators" message only ever stands alone. *)
Theorem recommendations_shape st :
  _generate_recommendations st ≠ [] ∧
  (length (_generate_recommendations st) ≤ 4)%nat ∧
  (rec_none ∈ _generate_recommendations st →
     _generate_recommendations st = [rec_none]).
Proof.
  destruct (recommendations_cases st) as [Hnone Hsome].
  split; [|split].
  - unfold _generate_recommendations. by destruct (add_if _ _ _).
  - unfold _generate_recommendations, add_if.
    repeat (destruct (bool_decide _)); simpl; lia.
  - intros Hin.
    assert ((high_conf st = 0 ∧ pattern_count st "banner_format" = 0 ∧
             pattern_count st "system_message" = 0 ∧
             pattern_count st "date_reference" = 0) ∨
            (0 < high_conf st ∨ 0 < pattern_count st "banner_format" ∨
             0 < pattern_count st "system_message" ∨
             0 < pattern_count st "date_reference")%nat) as [(?&?&?&?)|Hpos] by lia.
    + by apply Hnone.
    + by destruct (Hsome Hpos).
Qed.

(** ** Locations *)

Lemma pretty_N_go_not_l x s s' : s ≠ "l" +:+ s' → pretty_N_go x s ≠ "l" +:+ s'.
Proof.
  revert s. induction (N.lt_wf_0 x) as [x _ IH]; intros s Hs.
  assert (x = 0 ∨ 0 < x)%N as [->|Hx] by lia.
  - by rewrite pretty_N_go_0.
  - rewrite pretty_N_go_step by done. apply IH.
    { by apply N.div_lt. }
    unfold pretty_N_char. by repeat case_match.
Qed.

Lemma pretty_nat_not_list (k : nat) : pretty k ≠ "list".
Proof.
  unfold pretty, pretty_nat, pretty, pretty_N.
  destruct (decide (N.of_nat k = 0%N)); [done|].
  by apply (pretty_N_go_not_l _ "" "ist").
Qed.

Lemma message_location_inj (j k : nat) :
  "message_" +:+ pretty j = "message_" +:+ pretty k → j = k.
Proof. intros [= H]. by apply (inj pretty). Qed.

(** ** What is detected where *)

Lemma scan_rule_matches name s :
  rule_matches name s ↔ ∃ ms, (name, ms) ∈ scan s.
Proof.
  unfold rule_matches, scan. generalize announcement_patterns. intros l.
  rewrite Exists_exists. split.
  - intros ([n p] & Hin & Hn & Hs). cbn [fst snd] in *. subst n.
    exists (findall p s). apply list_elem_of_filter. split.
    + cbn [snd]. by apply findall_search.
    + apply list_elem_of_fmap. by exists (name, p).
  - intros (ms & Hin). apply list_elem_of_filter in Hin as [Hne Hin]. cbn [snd] in Hne.
    apply list_elem_of_fmap in Hin as ([n p] & Heq & Hin).
    cbn [fst snd] in Heq. injection Heq as -> ->.
    exists (n, p). split; [done|]. split; [done|]. by apply findall_search.
Qed.

Lemma content_detection cid ts loc s name :
  rule_matches name s ↔
  ∃ i, i ∈ content_indicators cid ts loc (PStr s) ∧ indicator_type i = name.
Proof.
  rewrite scan_rule_matches. simpl. split.
  - intros (ms & Hin). exists (indicator_for cid s loc ts (name, ms)).
    split; [|done]. apply list_elem_of_fmap. by eexists.
  - intros (i & Hin & Ht). apply list_elem_of_fmap in Hin as ([n ms] & -> & Hin).
    simpl in Ht. subst n. by exists ms.
Qed.

Lemma content_indicators_location cid ts loc v i :
  i ∈ content_indicators cid ts loc v → location i = loc.
Proof.
  intros Hin. pose proof (content_indicators_props cid ts loc v) as H.
  rewrite Forall_forall in H. by apply H.
Qed.

Lemma message_indicators_elem c j ms i :
  i ∈ message_indicators c j ms ↔
  ∃ k m, ms !! k = Some m ∧
    i ∈ content_indicators (call_id c) (timestamp c)
          ("message_" +:+ pretty (j + k)) (message_content m).
Proof.
  revert j. induction ms as [|m ms IH]; intros j; simpl.
  - split; [by intros ?%elem_of_nil|]. by intros (k & m & ? & _).
  - rewrite elem_of_app, IH. split.
    + intros [Hin|(k & m' & Hk & Hin)].
      * exists 0, m. by rewrite Nat.add_0_r.
      * exists (S k), m'. by rewrite Nat.add_succ_r.
    + intros ([|k] & m' & Hk & Hin).
      * left. simpl in Hk. injection Hk as <-. by rewrite Nat.add_0_r in Hin.
      * right. exists k, m'. by rewrite Nat.add_succ_r in Hin.
Qed.

Section Detection.

Variable isoformat : nat -> string.
Variable strftime_day : nat -> string.
Variable md5_hexdigest : string -> string.
Variable json_dumps : pyval -> string.

(** X10. For a request that follows the type annotations, detection is
    exact field by field: a rule has an indicator located at
    [system_prompt] exactly when it matches in the system prompt, and one
    located at [message_<k>] exactly when it matches in the text of message
    [k]. *)
Theorem request_detection_exact st ep params :
  well_typed_request params = true →
  ∃ new,
    indicators (snd (intercept_request isoformat strftime_day md5_hexdigest
                       json_dumps ep params st)) = indicators st ++ new ∧
    (∀ name s, params !! "system" = Some (PStr s) →
       (rule_matches name s ↔
        ∃ i, i ∈ new ∧ indicator_type i = name ∧ location i = "system_prompt")) ∧
    (∀ name k m s,
       request_messages params !! k = Some m → message_content m = PStr s →
       (rule_matches name s ↔
        ∃ i, i ∈ new ∧ indicator_type i = name ∧
             location i = "message_" +:+ pretty k)).
Proof.
  intros Hw. destruct (intercept_request_run isoformat strftime_day md5_hexdigest
                         json_dumps ep params st Hw) as (_ & _ & Hi).
  cbv zeta in Hi. eexists. split; [exact Hi|].
  set (c := request_call isoformat md5_hexdigest json_dumps ep params st).
  assert (∀ i n, i ∈ synthetic_indicators c n → location i = "message_list") as Hsyn.
  { intros i n. unfold synthetic_indicators. destruct (bool_decide _).
    - by intros ->%list_elem_of_singleton.
    - by intros ?%elem_of_nil. }
  split.
  - intros name s Hs.
    assert (system_prompt c = PStr s) as Hsp by (subst c; simpl; by rewrite Hs).
    split.
    + intros Hm. unfold system_indicators. rewrite Hsp.
      destruct (truthy (PStr s)) eqn:Ht.
      * apply (content_detection (call_id c) (timestamp c) "system_prompt")
          in Hm as (i & Hin & Hty).
        exists i. split; [by apply elem_of_app; left|]. split; [done|].
        by eapply content_indicators_location.
      * simpl in Ht. apply negb_false_iff, String.eqb_eq in Ht. subst s.
        apply scan_rule_matches in Hm as (ms & Hin).
        rewrite scan_empty in Hin. by apply elem_of_nil in Hin.
    + intros (i & Hin & Hty & Hloc).
      rewrite !elem_of_app in Hin. destruct Hin as [Hin|[Hin|Hin]].
      * unfold system_indicators in Hin. rewrite Hsp in Hin.
        destruct (truthy (PStr s)); [|by apply elem_of_nil in Hin].
        apply (content_detection (call_id c) (timestamp c) "system_prompt").
        by exists i.
      * apply message_indicators_elem in Hin as (k & m & _ & Hin).
        apply content_indicators_location in Hin. rewrite Hin in Hloc. discriminate.
      * apply Hsyn in Hin. rewrite Hin in Hloc. discriminate.
  - intros name k m s Hk Hm. split.
    + intros Hr.
      apply (content_detection (call_id c) (timestamp c) ("message_" +:+ pretty k))
        in Hr as (i & Hin & Hty).
      exists i. split; [|split; [done|by eapply content_indicators_location]].
      apply elem_of_app; right. apply elem_of_app; left.
      apply message_indicators_elem. exists k, m. split; [done|]. by rewrite Hm.
    + intros (i & Hin & Hty & Hloc).
      rewrite !elem_of_app in Hin. destruct Hin as [Hin|[Hin|Hin]].
      * unfold system_indicators in Hin.
        destruct (truthy _); [|by apply elem_of_nil in Hin].
        apply content_indicators_location in Hin. rewrite Hin in Hloc. discriminate.
      * apply message_indicators_elem in Hin as (k' & m' & Hk' & Hin).
        pose proof (content_indicators_location _ _ _ _ _ Hin) as Hloc'.
        rewrite Hloc' in Hloc. apply message_location_inj in Hloc. simpl in Hloc.
        subst k'. rewrite Hk in Hk'. injection Hk' as <-. rewrite Hm in Hin.
        apply (content_detection (call_id c) (timestamp c) ("message_" +:+ pretty k)).
        by exists i.
      * apply Hsyn in Hin. rewrite Hin in Hloc. injection Hloc as Hloc.
        by destruct (pretty_nat_not_list k).
Qed.

End Detection.

(** ** The simulated calls *)

Section Simulated.

Variable isoformat : nat -> string.
Variable strftime_day : nat -> string.
Variable md5_hexdigest : string -> string.
Variable json_dumps : pyval -> string.

(** One request of the simulation followed by its response. *)
Lemma exchange_run (request response : gmap string pyval) {A} (k : M A) st :
  well_typed_request request = true →
  forallb typed_block (response_blocks response) = true →
  ∃ c1 c2 st',
    (cid ← intercept_request isoformat strftime_day md5_hexdigest json_dumps
             "beta.messages.create" request ;
     intercept_response isoformat strftime_day cid response ;; k) st = k st' ∧
    type c1 = "request" ∧ type c2 = "response" ∧ call_id c2 = call_id c1 ∧
    calls st' = calls st ++ [c1; c2] ∧
    indicators st' =
      indicators st ++
      (system_indicators c1 ++ message_indicators c1 0 (request_messages request)
       ++ synthetic_indicators c1 (user_messages request))
      ++ response_indicators c2 0 (response_blocks response) ∧
    system_prompt c1 = default (PStr "") (request !! "system").
Proof.
  intros Hw Hb. rewrite bind_run.
  destruct (intercept_request_run isoformat strftime_day md5_hexdigest json_dumps
              "beta.messages.create" request st Hw) as (Hr1 & Hc1 & Hi1).
  cbv zeta in *.
  set (c1 := request_call isoformat md5_hexdigest json_dumps
               "beta.messages.create" request st) in *.
  destruct (intercept_request _ _ _ _ _ _ st) as [r1 st1]. cbn [fst snd] in *.
  subst r1. cbv beta iota. rewrite bind_run.
  destruct (intercept_response_run isoformat strftime_day st1 (call_id c1)
              response Hb) as (Hr2 & Hc2 & Hi2).
  cbv zeta in *.
  set (c2 := response_call isoformat (call_id c1) response st1) in *.
  destruct (intercept_response _ _ _ _ st1) as [r2 st2]. cbn [fst snd] in *.
  subst r2. cbv beta iota.
  exists c1, c2, st2. split; [done|].
  repeat split; try done.
  - by rewrite Hc2, Hc1, <- app_assoc.
  - by rewrite Hi2, Hi1, <- !app_assoc.
Qed.

Lemma exchange_last (request response : gmap string pyval) st :
  well_typed_request request = true →
  forallb typed_block (response_blocks response) = true →
  ∃ c1 c2 st',
    (cid ← intercept_request isoformat strftime_day md5_hexdigest json_dumps
             "beta.messages.create" request ;
     intercept_response isoformat strftime_day cid response) st = (Ok tt, st') ∧
    type c1 = "request" ∧ type c2 = "response" ∧ call_id c2 = call_id c1 ∧
    calls st' = calls st ++ [c1; c2] ∧
    indicators st' =
      indicators st ++
      (system_indicators c1 ++ message_indicators c1 0 (request_messages request)
       ++ synthetic_indicators c1 (user_messages request))
      ++ response_indicators c2 0 (response_blocks response) ∧
    system_prompt c1 = default (PStr "") (request !! "system").
Proof.
  intros Hw Hb. rewrite bind_run.
  destruct (intercept_request_run isoformat strftime_day md5_hexdigest json_dumps
              "beta.messages.create" request st Hw) as (Hr1 & Hc1 & Hi1).
  cbv zeta in *.
  set (c1 := request_call isoformat md5_hexdigest json_dumps
               "beta.messages.create" request st) in *.
  destruct (intercept_request _ _ _ _ _ _ st) as [r1 st1]. cbn [fst snd] in *.
  subst r1. cbv beta iota.
  destruct (intercept_response_run isoformat strftime_day st1 (call_id c1)
              response Hb) as (Hr2 & Hc2 & Hi2).
  cbv zeta in *.
  set (c2 := response_call isoformat (call_id c1) response st1) in *.
  destruct (intercept_response _ _ _ _ st1) as [r2 st2]. cbn [fst snd] in *.
  subst r2.
  exists c1, c2, st2. split; [done|].
  repeat split; try done.
  - by rewrite Hc2, Hc1, <- app_assoc.
  - by rewrite Hi2, Hi1, <- !app_assoc.
Qed.

(** X18. From any state, [simulate_intercepted_calls] returns without
    raising.  It appends six calls, request and response in turn, each
    response under the identifier of the request before it, and five
    indicators: [banner_format], [announcement_keyword] and [date_reference],
    all HIGH, for the system prompt of the second request, then
    [system_message] (HIGH) and [version_info] (MEDIUM) for the first block
    of the third response. *)
Theorem simulation_outcome st :
  let out := simulate_intercepted_calls isoformat strftime_day md5_hexdigest
               json_dumps st in
  fst out = Ok tt ∧
  ∃ c1 c2 c3 c4 c5 c6 new,
    calls (snd out) = calls st ++ [c1; c2; c3; c4; c5; c6] ∧
    map type [c1; c2; c3; c4; c5; c6] =
      ["request"; "response"; "request"; "response"; "request"; "response"] ∧
    call_id c2 = call_id c1 ∧ call_id c4 = call_id c3 ∧ call_id c6 = call_id c5 ∧
    indicators (snd out) = indicators st ++ new ∧
    map (fun i => (indicator_type i, confidence i, location i, ind_call_id i)) new =
      [ ("banner_format", HIGH, "system_prompt", call_id c3);
        ("announcement_keyword", HIGH, "system_prompt", call_id c3);
        ("date_reference", HIGH, "system_prompt", call_id c3);
        ("system_message", HIGH, "response_block_0", call_id c5);
        ("version_info", MEDIUM, "response_block_0", call_id c5) ].
Proof.
  cbv zeta. unfold simulate_intercepted_calls.
  destruct (exchange_run plain_request plain_response
              (call_id_2 ← intercept_request isoformat strftime_day md5_hexdigest
                             json_dumps "beta.messages.create" scenario_a_request ;
               intercept_response isoformat strftime_day call_id_2 continue_response ;;
               call_id_3 ← intercept_request isoformat strftime_day md5_hexdigest
                             json_dumps "beta.messages.create" quota_request ;
               intercept_response isoformat strftime_day call_id_3 scenario_b_response)
              st)
    as (c1 & c2 & st2 & -> & Ht1 & Ht2 & Hid2 & Hc2 & Hi2 & Hs1);
    [vm_compute; reflexivity|vm_compute; reflexivity|].
  destruct (exchange_run scenario_a_request continue_response
              (call_id_3 ← intercept_request isoformat strftime_day md5_hexdigest
                             json_dumps "beta.messages.create" quota_request ;
               intercept_response isoformat strftime_day call_id_3 scenario_b_response)
              st2)
    as (c3 & c4 & st4 & -> & Ht3 & Ht4 & Hid4 & Hc4 & Hi4 & Hs3);
    [vm_compute; reflexivity|vm_compute; reflexivity|].
  destruct (exchange_last quota_request scenario_b_response st4)
    as (c5 & c6 & st6 & -> & Ht5 & Ht6 & Hid6 & Hc6 & Hi6 & Hs5);
    [vm_compute; reflexivity|vm_compute; reflexivity|].
  cbn [fst snd]. split; [reflexivity|].
  exists c1, c2, c3, c4, c5, c6. eexists.
  split; [by rewrite Hc6, Hc4, Hc2, <- !app_assoc|].
  split; [simpl; by rewrite Ht1, Ht2, Ht3, Ht4, Ht5, Ht6|].
  split; [done|]. split; [done|]. split; [done|].
  split; [rewrite Hi6, Hi4, Hi2, <- !app_assoc; reflexivity|].
  unfold system_indicators. rewrite Hs1, Hs3, Hs5, <- Hid6.
  vm_compute. reflexivity.
Qed.

End Simulated.

(** ** More on the scorer and the frequency table *)

(** X3. The confidence of a rule never goes down when more rules match:
    if at least as many distinct rules match in a second content as in a
    first, the rule scores at least as high for the second. *)
Theorem confidence_monotone name m1 m2 s1 s2 :
  (size (matching_rules s1) ≤ size (matching_rules s2))%nat →
  (confidence_rank (_determine_confidence name m1 s1)
     ≤ confidence_rank (_determine_confidence name m2 s2))%nat.
Proof.
  intros Hle. rewrite !confidence_by_count.
  destruct (bool_decide _); [done|].
  destruct (size (matching_rules s1)) as [|[|[|n1]]],
           (size (matching_rules s2)) as [|[|[|n2]]];
    try lia; vm_compute; lia.
Qed.

Lemma confidence_monotone_witness :
  (size (matching_rules "An urgent request")
     ≤ size (matching_rules "An urgent notice"))%nat ∧
  (confidence_rank (_determine_confidence "urgent_marker" [] "An urgent request")
     ≤ confidence_rank (_determine_confidence "urgent_marker" [] "An urgent notice"))%nat.
Proof.
  split; [vm_compute; lia|].
  apply (confidence_monotone "urgent_marker" [] [] "An urgent request" "An urgent notice").
  vm_compute; lia.
Defined.

Section Table.

Variable isoformat : nat -> string.
Variable strftime_day : nat -> string.
Variable md5_hexdigest : string -> string.
Variable json_dumps : pyval -> string.

(** X13. In every reachable state the frequency table has at most six
    entries, each for a rule of the registry and each at least one. *)
Theorem frequency_table_bounds st :
  reachable isoformat strftime_day md5_hexdigest json_dumps st →
  (size (call_patterns st) ≤ 6)%nat ∧
  ∀ name n, call_patterns st !! name = Some n →
    name ∈ registry_names ∧ (1 ≤ n)%nat.
Proof.
  intros Hr. apply reachable_ledger_inv in Hr as (Hc & _ & _).
  assert (∀ name n, call_patterns st !! name = Some n →
            name ∈ registry_names ∧ (1 ≤ n)%nat) as Hkeys.
  { intros name n. rewrite Hc.
    destruct (bool_decide_reflect (name ∈ registry_names)); [|done].
    destruct (type_count _ _); [done|]. intros [= <-]. split; [done|lia]. }
  split; [|exact Hkeys].
  rewrite <- size_dom.
  replace 6 with (size (list_to_set registry_names : gset string)).
  2:{ rewrite size_list_to_set by apply registry_names_nodup. reflexivity. }
  apply subseteq_size. intros name [n Hn]%elem_of_dom.
  apply elem_of_list_to_set. by apply Hkeys in Hn as [? _].
Qed.

End Table.

(** ** The further properties on the sample payloads *)

Lemma reachable_indicators_wf_witness :
  length (indicators scenario_b_state) = 3 ∧
  Forall indicator_wf (indicators scenario_b_state).
Proof.
  split; [vm_compute; reflexivity|].
  apply (reachable_indicators_wf env_iso env_day env_md5 env_json scenario_b_state).
  apply reach_response, reach_request, reach_init.
Defined.

Lemma frequency_table_bounds_witness :
  (size (call_patterns scenario_b_state) ≤ 6)%nat ∧
  ∀ name n, call_patterns scenario_b_state !! name = Some n →
    name ∈ registry_names ∧ (1 ≤ n)%nat.
Proof.
  apply (frequency_table_bounds env_iso env_day env_md5 env_json scenario_b_state).
  apply reach_response, reach_request, reach_init.
Defined.

Lemma report_frequency_is_group_size_witness :
  pattern_frequency (report_of "2025-10-16T10:00:09" scenario_b_state)
    !! "system_message" = Some 1 ∧
  ∀ name,
    pattern_frequency (report_of "2025-10-16T10:00:09" scenario_b_state) !! name =
      if bool_decide (name ∈ registry_names)
      then length <$> indicators_by_type
                        (report_of "2025-10-16T10:00:09" scenario_b_state) !! name
      else None.
Proof.
  split; [vm_compute; reflexivity|].
  apply (report_frequency_is_group_size env_iso env_day env_md5 env_json
           scenario_b_state "2025-10-16T10:00:09").
  apply reach_response, reach_request, reach_init.
Defined.

Lemma response_typed_run_witness :
  forallb typed_block (response_blocks mixed_response) = true ∧
  let out := intercept_response env_iso env_day "9e107d9d" mixed_response init in
  let c := response_call env_iso "9e107d9d" mixed_response init in
  fst out = Ok tt ∧
  calls (snd out) = calls init ++ [c] ∧
  indicators (snd out) =
    indicators init ++ response_indicators c 0 (response_blocks mixed_response).
Proof.
  split; [vm_compute; reflexivity|].
  apply (response_typed_run env_iso env_day init "9e107d9d" mixed_response).
  vm_compute; reflexivity.
Defined.

Lemma response_bare_string_witness :
  bare_response !! "content" = Some (PStr "Version 1.2 is urgent") ∧
  let out := intercept_response env_iso env_day "9e107d9d" bare_response init in
  fst out = Ok tt ∧
  messages <$> last (calls (snd out)) = Some (PList [PStr "Version 1.2 is urgent"]) ∧
  indicators (snd out) =
    indicators init ++
    map (indicator_for "9e107d9d" "Version 1.2 is urgent" "response_content_0"
           (env_iso (clock init)))
        (scan "Version 1.2 is urgent").
Proof.
  split; [vm_compute; reflexivity|].
  apply (response_bare_string env_iso env_day init "9e107d9d" bare_response
           "Version 1.2 is urgent").
  vm_compute; reflexivity.
Defined.

Lemma request_detection_exact_witness :
  well_typed_request scenario_a_request = true ∧
  ∃ new,
    indicators (snd (intercept_request env_iso env_day env_md5 env_json
                       "beta.messages.create" scenario_a_request init))
      = indicators init ++ new ∧
    (∀ name s, scenario_a_request !! "system" = Some (PStr s) →
       (rule_matches name s ↔
        ∃ i, i ∈ new ∧ indicator_type i = name ∧ location i = "system_prompt")) ∧
    (∀ name k m s,
       request_messages scenario_a_request !! k = Some m →
       message_content m = PStr s →
       (rule_matches name s ↔
        ∃ i, i ∈ new ∧ indicator_type i = name ∧
             location i = "message_" +:+ pretty k)).
Proof.
  split; [vm_compute; reflexivity|].
  apply (request_detection_exact env_iso env_day env_md5 env_json init
           "beta.messages.create" scenario_a_request).
  vm_compute; reflexivity.
Defined.
